(** * LineCrossingCounter: a shallow embedding of
      src/esp32cam/apps/LineCrossingCounter.h

    The class counts objects that cross a vertical line of a motion grid.
    Integers are modelled as [Z] with the C++ conversions written out,
    [float] members as IEEE-754 binary32 values ([spec_float] with
    precision 24 and emax 128), the [uint16_t _motion[7]] array as a list
    read and written by index, and the calls made on the detector as a
    trace of the cells that were queried.

    The target is the ESP32: [int] has 32 bits, so that operands of type
    [uint8_t], [uint16_t] and [int16_t] are promoted to [int] and every
    comparison and difference below is taken on signed integers without
    wrap-around; [float] expressions are evaluated in binary32, rounding to
    nearest even.  A conversion from [float] to [uint16_t] truncates, and
    has no defined result when the truncated value does not fit. *)

From Stdlib Require Import ZArith List Bool String Lia.
From Stdlib Require Import Floats.SpecFloat.
Import ListNotations.
Open Scope Z_scope.

(** ** Fixed-width integers *)

Definition to_uint8 (z : Z) : Z := z mod 256.
Definition to_uint16 (z : Z) : Z := z mod 65536.
Definition to_int16 (z : Z) : Z := (z + 32768) mod 65536 - 32768.

Definition is_uint8 (z : Z) : Prop := 0 <= z <= 255.
Definition is_uint16 (z : Z) : Prop := 0 <= z <= 65535.

(** ** binary32 arithmetic, as the target evaluates [float] expressions *)

Module Float32.

Definition prec : Z := 24.
Definition emax : Z := 128.

Definition float : Type := spec_float.

Definition valid (f : float) : bool := valid_binary prec emax f.

(** Conversion of an integer that fits the mantissa (here: a [uint16_t]
    promoted to [int], or a small literal). *)
Definition of_Z (z : Z) : float := binary_normalize prec emax z 0 false.

Definition mul : float -> float -> float := SFmul prec emax.
Definition div : float -> float -> float := SFdiv prec emax.
Definition sub : float -> float -> float := SFsub prec emax.
Definition leb : float -> float -> bool := SFleb.

(** Integer part, rounding toward zero; undefined on NaN and infinities. *)
Definition trunc (f : float) : option Z :=
  match f with
  | S754_zero _ => Some 0
  | S754_finite s m e =>
      Some (cond_Zopp s
              (match e with
               | Zneg p => Z.pos m / 2 ^ Z.pos p
               | _ => Z.pos m * 2 ^ e
               end))
  | S754_infinity _ | S754_nan => None
  end.

(** Conversion of a [float] to [uint16_t]: the value is truncated, and the
    behaviour is undefined ([None]) when the result does not fit. *)
Definition to_uint16 (f : float) : option Z :=
  match trunc f with
  | Some z => if (0 <=? z) && (z <=? 65535) then Some z else None
  | None => None
  end.

Definition zero : float := S754_zero false.
Definition one : float := of_Z 1.
Definition eight : float := of_Z 8.

(** The literal [0.999] rounded to binary32. *)
Definition c0_999 : float := S754_finite false 16760439 (-24).

End Float32.

Abbreviation float := Float32.float.

(** ** Collaborators *)

(** The motion detector ([Motion::Detector], declared outside this file): grid
    dimensions in cells and the foreground query per cell.  The grid changes
    from frame to frame, so every [update] receives the detector as it is at
    that frame. *)
Record Detector : Type := mkDetector {
  getWidth : Z;
  getHeight : Z;
  isForeground : Z -> Z -> bool
}.

(** Modelled from the spec: the debounce collaborator (traits/Debounces.h is
    not among the sources).  The spec gives two operations, a test whether the
    cooldown has elapsed since the last accepted event ([debounced]) and the
    marking of an accepted event, which resets the cooldown clock ([touch]).
    [D] stands for the collaborator's state together with the clock it reads. *)
Class Debounces (D : Type) : Type := {
  debounced : D -> bool;
  touch : D -> D
}.

(** Modelled from the spec: one concrete debounce collaborator, a cooldown
    clock.  The cooldown has elapsed when at least [cd_interval] time units
    separate the current time from the last accepted event; accepting an
    event records the current time. *)
Record Cooldown : Type := mkCooldown {
  cd_now : Z;
  cd_last : Z;
  cd_interval : Z
}.

#[export] Instance Cooldown_Debounces : Debounces Cooldown := {
  debounced c := cd_interval c <=? cd_now c - cd_last c;
  touch c := mkCooldown (cd_now c) (cd_now c) (cd_interval c)
}.

(** ** Object state *)

Record LineCrossingCounter {D : Type} : Type := mkLCC {
  _x : float;
  _miny : float;
  _maxy : float;
  _lag : Z;            (* uint8_t *)
  _sparsity : Z;       (* uint8_t *)
  _t : Z;              (* uint16_t *)
  _ltrCount : Z;       (* uint16_t *)
  _rtlCount : Z;       (* uint16_t *)
  _motion : list Z;    (* uint16_t [7] *)
  _error : string;     (* HasErrorMessage *)
  _debounces : D       (* Debounces *)
}.
Arguments LineCrossingCounter D : clear implicits.
Arguments mkLCC {D}.

(** Array access.  Every index the class uses is [bin + 3] with
    [-3 <= bin <= 3], inside the seven slots. *)
Definition mget (m : list Z) (k : Z) : Z := nth (Z.to_nat k) m 0.

Fixpoint set_nth (n : nat) (v : Z) (m : list Z) : list Z :=
  match m, n with
  | [], _ => []
  | _ :: m', O => v :: m'
  | a :: m', S n' => a :: set_nth n' v m'
  end.

Definition mset (m : list Z) (k : Z) (v : Z) : list Z := set_nth (Z.to_nat k) v m.

Section Model.

Context {D : Type} `{Debounces D}.

Abbreviation LCC := (LineCrossingCounter D).

(** The constructor.  [_motion] is absent from the initialiser list: its
    initial contents [m0] are those of the storage the object is placed in
    (all zero for an object with static storage duration). *)
Definition construct (m0 : list Z) (d0 : D) : LCC :=
  mkLCC Float32.zero Float32.zero Float32.c0_999 3 4 0 0 0 m0 EmptyString d0.

Definition with_config (st : LCC) (x miny maxy : float) (lag sparsity : Z) : LCC :=
  mkLCC x miny maxy lag sparsity (_t st) (_ltrCount st) (_rtlCount st)
        (_motion st) (_error st) (_debounces st).

Definition lineAt (x : float) (st : LCC) : LCC :=
  with_config st x (_miny st) (_maxy st) (_lag st) (_sparsity st).

Definition above (y : float) (st : LCC) : LCC :=
  with_config st (_x st) y (_maxy st) (_lag st) (_sparsity st).

Definition below (y : float) (st : LCC) : LCC :=
  with_config st (_x st) (_miny st) y (_lag st) (_sparsity st).

(** The argument is converted to [uint8_t] at the call. *)
Definition lag (n : Z) (st : LCC) : LCC :=
  with_config st (_x st) (_miny st) (_maxy st) (to_uint8 n) (_sparsity st).

Definition sparsity (n : Z) (st : LCC) : LCC :=
  with_config st (_x st) (_miny st) (_maxy st) (_lag st) (to_uint8 n).

(** Modelled from the spec: [setErrorMessage] of traits/HasErrorMessage.h,
    which is not among the sources.  It stores the message and reports
    whether the object is free of error: a non-empty message is a failure,
    the empty message clears any prior error and is a success. *)
Definition setErrorMessage (msg : string) (st : LCC) : bool * LCC :=
  (match msg with EmptyString => true | _ => false end,
   mkLCC (_x st) (_miny st) (_maxy st) (_lag st) (_sparsity st) (_t st)
         (_ltrCount st) (_rtlCount st) (_motion st) msg (_debounces st)).

Definition with_t_motion (st : LCC) (t : Z) (m : list Z) : LCC :=
  mkLCC (_x st) (_miny st) (_maxy st) (_lag st) (_sparsity st) t
        (_ltrCount st) (_rtlCount st) m (_error st) (_debounces st).

(** *** update *)

(** [_x >= 1 ? _x / 8 : _x * width], a [float]. *)
Definition resolve (v : float) (dim : Z) : float :=
  if Float32.leb Float32.one v
  then Float32.div v Float32.eight
  else Float32.mul v (Float32.of_Z dim).

(** The three locals [x], [above], [below] of [update], each a [float]
    expression converted to [uint16_t]. *)
Definition resolve_x (st : LCC) (det : Detector) : option Z :=
  Float32.to_uint16 (resolve (_x st) (getWidth det)).

Definition resolve_above (st : LCC) (det : Detector) : option Z :=
  Float32.to_uint16
    (Float32.sub (Float32.of_Z (getHeight det)) (resolve (_miny st) (getHeight det))).

Definition resolve_below (st : LCC) (det : Detector) : option Z :=
  Float32.to_uint16
    (Float32.sub (Float32.of_Z (getHeight det)) (resolve (_maxy st) (getHeight det))).

(** [for (uint16_t y = below; y < above; y++)] on column [col]: the rows
    are queried in order up to the first foreground cell.  Returns whether
    one was found and the cells queried. *)
Fixpoint scan_rows (det : Detector) (col y : Z) (n : nat) : bool * list (Z * Z) :=
  match n with
  | O => (false, [])
  | S n' =>
      if isForeground det col y then (true, [(col, y)])
      else let '(found, tr) := scan_rows det col (y + 1) n' in
           (found, (col, y) :: tr)
  end.

(** [for (uint8_t j = ...; j < _sparsity; j++)] of bin [i], with [n]
    iterations left. *)
Fixpoint scan_columns (det : Detector) (x above below t sparsity i : Z)
         (j : Z) (n : nat) (m : list Z) : list Z * list (Z * Z) :=
  match n with
  | O => (m, [])
  | S n' =>
      let dx := to_int16 (i * sparsity + j) in
      if (dx + x <? 0) || (dx + x >? getWidth det)
      then scan_columns det x above below t sparsity i (j + 1) n' m
      else
        let '(found, tr) := scan_rows det (dx + x) below (Z.to_nat (above - below)) in
        let m' := if found then mset m (i + 3) t else m in
        if mget m' (i + 3) =? 0
        then let '(m'', tr') :=
               scan_columns det x above below t sparsity i (j + 1) n' m' in
             (m'', tr ++ tr')
        else (m', tr)
  end.

(** The guard [_motion[i + 3] >= _t - _lag]; both sides are promoted to
    [int], so the difference may be negative. *)
Definition fresh (t lag : Z) (m : list Z) (i : Z) : bool :=
  mget m (i + 3) >=? t - lag.

(** The body of [for (int16_t i = -3; i <= 3; i++)]. *)
Definition update_bin (det : Detector) (x above below t lag sparsity : Z)
           (i : Z) (m : list Z) : list Z * list (Z * Z) :=
  if i =? 0 then (m, [])
  else if fresh t lag m i then (m, [])
  else scan_columns det x above below t sparsity i 0 (Z.to_nat sparsity) m.

Definition bins : list Z := [-3; -2; -1; 0; 1; 2; 3].

Fixpoint update_bins (det : Detector) (x above below t lag sparsity : Z)
         (bs : list Z) (m : list Z) : list Z * list (Z * Z) :=
  match bs with
  | [] => (m, [])
  | i :: bs' =>
      let '(m', tr) := update_bin det x above below t lag sparsity i m in
      let '(m'', tr') := update_bins det x above below t lag sparsity bs' m' in
      (m'', tr ++ tr')
  end.

(** [_t += 1; if (_t > 65000) _t = 1;] *)
Definition next_tick (t : Z) : Z :=
  let t1 := to_uint16 (t + 1) in
  if t1 >? 65000 then 1 else t1.

(** [update] once the three locals are known. *)
Definition update_at (x above below : Z) (st : LCC) (det : Detector)
  : bool * LCC * list (Z * Z) :=
  if x <? 1 then (setErrorMessage "x-coordinate must be >= 8" st, [])
  else if below >=? above then (setErrorMessage "above/below limits mismatch" st, [])
  else
    let t := next_tick (_t st) in
    let '(m, tr) :=
      update_bins det x above below t (_lag st) (_sparsity st) bins (_motion st) in
    (setErrorMessage "" (with_t_motion st t m), tr).

(** [update()]: the result, the new state and the cells passed to
    [isForeground], in order.  [None] when one of the conversions to
    [uint16_t] is undefined. *)
Definition update (st : LCC) (det : Detector) : option (bool * LCC * list (Z * Z)) :=
  match resolve_x st det, resolve_above st det, resolve_below st det with
  | Some x, Some above, Some below => Some (update_at x above below st det)
  | _, _, _ => None
  end.

(** *** Crossing queries *)

(** [gt(a, b)]: did motion at bin [a] happen after motion at bin [b],
    within the lag?  The comparisons are made on [int]. *)
Definition gt (st : LCC) (a b : Z) : Z :=
  let a := a + 3 in
  let b := b + 3 in
  let ma := mget (_motion st) a in
  let mb := mget (_motion st) b in
  if (ma =? 0) || (mb =? 0) || (ma <? _t st - 2 * _lag st) then 0
  else if (ma >? mb) && (ma - mb <=? _lag st) then 10
  else if (ma >=? mb) && (ma - mb <=? _lag st) then 1 else 0.

Definition ltr_score (st : LCC) : Z :=
  to_uint8 (gt st (-2) (-3) + gt st (-1) (-2) + gt st 1 (-1) + gt st 2 1).

Definition rtl_score (st : LCC) : Z :=
  to_uint8 (gt st (-2) (-1) + gt st (-1) 1 + gt st 1 2 + gt st 2 3).

Definition accepts (crossed : Z) : bool :=
  (crossed >? 20) && (crossed mod 10 >? 0).

Definition crossedFromLeftToRight (st : LCC) : bool * LCC :=
  if negb (debounced (_debounces st)) then (false, st)
  else if accepts (ltr_score st)
  then (true,
        mkLCC (_x st) (_miny st) (_maxy st) (_lag st) (_sparsity st) (_t st)
              (to_uint16 (_ltrCount st + 1)) (_rtlCount st) (_motion st)
              (_error st) (touch (_debounces st)))
  else (false, st).

Definition crossedFromRightToLeft (st : LCC) : bool * LCC :=
  if negb (debounced (_debounces st)) then (false, st)
  else if accepts (rtl_score st)
  then (true,
        mkLCC (_x st) (_miny st) (_maxy st) (_lag st) (_sparsity st) (_t st)
              (_ltrCount st) (to_uint16 (_rtlCount st + 1)) (_motion st)
              (_error st) (touch (_debounces st)))
  else (false, st).

Definition getLeftToRightCount (st : LCC) : Z := _ltrCount st.
Definition getRightToLeftCount (st : LCC) : Z := _rtlCount st.

End Model.

(** ** Call sequences *)

Section Calls.

Context {D : Type} `{Debounces D}.

(** The public operations, and the one thing the environment does between
    two calls: the debounce collaborator moves on (time passes, or its
    interval is set) and is then in state [d]. *)
Variant Call : Type :=
| CallLineAt (x : float)
| CallAbove (y : float)
| CallBelow (y : float)
| CallLag (n : Z)
| CallSparsity (n : Z)
| CallUpdate (det : Detector)
| CallCrossedFromLeftToRight
| CallCrossedFromRightToLeft
| Elapse (d : D).

Definition with_debounces (st : LineCrossingCounter D) (d : D) : LineCrossingCounter D :=
  mkLCC (_x st) (_miny st) (_maxy st) (_lag st) (_sparsity st) (_t st)
        (_ltrCount st) (_rtlCount st) (_motion st) (_error st) d.

(** One call: the new state, and whether the call was an [update] that
    returned [true]. *)
Definition call (c : Call) (st : LineCrossingCounter D)
  : option (bool * LineCrossingCounter D) :=
  match c with
  | CallLineAt x => Some (false, lineAt x st)
  | CallAbove y => Some (false, above y st)
  | CallBelow y => Some (false, below y st)
  | CallLag n => Some (false, lag n st)
  | CallSparsity n => Some (false, sparsity n st)
  | CallUpdate det =>
      match update st det with
      | Some (ok, st', _) => Some (ok, st')
      | None => None
      end
  | CallCrossedFromLeftToRight => Some (false, snd (crossedFromLeftToRight st))
  | CallCrossedFromRightToLeft => Some (false, snd (crossedFromRightToLeft st))
  | Elapse d => Some (false, with_debounces st d)
  end.

(** A sequence of calls, first call first: the number of successful
    updates and the final state. *)
Fixpoint run (cs : list Call) (st : LineCrossingCounter D)
  : option (nat * LineCrossingCounter D) :=
  match cs with
  | [] => Some (O, st)
  | c :: cs' =>
      match call c st with
      | Some (ok, st') =>
          match run cs' st' with
          | Some (n, st'') => Some ((if ok then S n else n), st'')
          | None => None
          end
      | None => None
      end
  end.

(** The bounds the member types impose. *)
Definition wf (st : LineCrossingCounter D) : Prop :=
  is_uint8 (_lag st) /\ is_uint8 (_sparsity st) /\ is_uint16 (_t st) /\
  is_uint16 (_ltrCount st) /\ is_uint16 (_rtlCount st) /\
  List.length (_motion st) = 7%nat /\ Forall is_uint16 (_motion st).

(** The timestamp of a bin, by its offset from the line. *)
Definition bin (st : LineCrossingCounter D) (i : Z) : Z := mget (_motion st) (i + 3).

(** The non-zero slots of the buffer. *)
Definition stamps (m : list Z) : list Z := filter (fun v => negb (v =? 0)) m.

(** At most one slot of the buffer holds a stamp. *)
Definition at_most_one_stamp (m : list Z) : bool :=
  Nat.leb (List.length (stamps m)) 1.

End Calls.

(** ** Concrete grids and states used in the examples *)

(** A 40 x 30 grid whose foreground is the columns [c0 .. c1], all rows. *)
Definition frame (c0 c1 : Z) : Detector :=
  mkDetector 40 30 (fun c _ => (c0 <=? c) && (c <=? c1)).

Definition no_motion : Detector := frame 1 0.
Definition all_motion : Detector := frame 0 39.

(** A cooldown of 500 time units, elapsed. *)
Definition cooldown_elapsed : Cooldown := mkCooldown 1000 0 500.

(** A counter with static storage duration, freshly constructed. *)
Definition fresh_counter : LineCrossingCounter Cooldown :=
  construct [0; 0; 0; 0; 0; 0; 0] cooldown_elapsed.

(** The line at pixel 160 (column 20): the bands are columns 8-11, 12-15,
    16-19 to the left and 24-27, 28-31, 32-35 to the right. *)
Definition line_at_160 : list (@Call Cooldown) :=
  [CallLineAt (Float32.of_Z 160)].

(** Three frames without motion, then an object seen in bin -3, -2, -1 and
    +1 on four consecutive frames. *)
Definition sweep_right : list (@Call Cooldown) :=
  line_at_160 ++
  [CallUpdate no_motion; CallUpdate no_motion; CallUpdate no_motion;
   CallUpdate (frame 8 11); CallUpdate (frame 12 15);
   CallUpdate (frame 16 19); CallUpdate (frame 24 27)].

(** The same, with the object wide enough to reach bins +1 and +2 in the
    last frame. *)
Definition sweep_right_wide : list (@Call Cooldown) :=
  line_at_160 ++
  [CallUpdate no_motion; CallUpdate no_motion; CallUpdate no_motion;
   CallUpdate (frame 8 11); CallUpdate (frame 12 15);
   CallUpdate (frame 16 19); CallUpdate (frame 24 31)].

Definition after_sweep_right_wide : LineCrossingCounter Cooldown :=
  mkLCC (Float32.of_Z 160) Float32.zero Float32.c0_999 3 4 7 0 0
        [4; 5; 6; 0; 7; 7; 0] EmptyString cooldown_elapsed.

Definition after_sweep_right : LineCrossingCounter Cooldown :=
  mkLCC (Float32.of_Z 160) Float32.zero Float32.c0_999 3 4 7 0 0
        [4; 5; 6; 0; 7; 0; 0] EmptyString cooldown_elapsed.

(** A freshly constructed counter with the line set at pixel 160. *)
Definition line_set : LineCrossingCounter Cooldown :=
  lineAt (Float32.of_Z 160) fresh_counter.

(** The line at pixel 160, after the three frames in which every bin is
    still taken as fresh. *)
Definition warm_up : list (@Call Cooldown) :=
  line_at_160 ++ [CallUpdate no_motion; CallUpdate no_motion; CallUpdate no_motion].

Definition warmed_up : LineCrossingCounter Cooldown :=
  mkLCC (Float32.of_Z 160) Float32.zero Float32.c0_999 3 4 3 0 0
        [0; 0; 0; 0; 0; 0; 0] EmptyString cooldown_elapsed.

(** The line at pixel 288 (column 36 of 40): the band of bin +1 starts at
    column 40. *)
Definition near_right_edge : list (@Call Cooldown) :=
  [CallLineAt (Float32.of_Z 288);
   CallUpdate no_motion; CallUpdate no_motion; CallUpdate no_motion].

Definition warmed_up_near_right_edge : LineCrossingCounter Cooldown :=
  mkLCC (Float32.of_Z 288) Float32.zero Float32.c0_999 3 4 3 0 0
        [0; 0; 0; 0; 0; 0; 0] EmptyString cooldown_elapsed.

(** Motion in the first column of bin -3 at tick 4, then three frames
    without motion. *)
Definition stamp_then_rest : list (@Call Cooldown) :=
  line_at_160 ++
  [CallUpdate no_motion; CallUpdate no_motion; CallUpdate no_motion;
   CallUpdate (frame 8 8);
   CallUpdate no_motion; CallUpdate no_motion; CallUpdate no_motion].

Definition stale_bin : LineCrossingCounter Cooldown :=
  mkLCC (Float32.of_Z 160) Float32.zero Float32.c0_999 3 4 7 0 0
        [4; 0; 0; 0; 0; 0; 0] EmptyString cooldown_elapsed.

(** The fourth update after construction, on a frame whose foreground is
    column 9 (in the band of bin -3): result, state and queried cells. *)
Definition first_stamp : bool * LineCrossingCounter Cooldown * list (Z * Z) :=
  update_at 20 30 0 warmed_up (frame 9 9).

(** Bin -3 stamped at the last tick before the wrap, and the state five
    updates later, every frame being all foreground. *)
Definition stamped_at_ceiling : LineCrossingCounter Cooldown :=
  mkLCC (Float32.of_Z 160) Float32.zero Float32.c0_999 3 4 65000 0 0
        [65000; 0; 0; 0; 0; 0; 0] EmptyString cooldown_elapsed.

Definition five_frames : list (@Call Cooldown) :=
  [CallUpdate all_motion; CallUpdate all_motion; CallUpdate all_motion;
   CallUpdate all_motion; CallUpdate all_motion].

Definition after_the_wrap : LineCrossingCounter Cooldown :=
  mkLCC (Float32.of_Z 160) Float32.zero Float32.c0_999 3 4 5 0 0
        [65000; 4; 4; 0; 4; 4; 4] EmptyString cooldown_elapsed.

(** An object seen in bin +3, +2, +1 on three consecutive frames and then
    in bins -1 and -2 at once. *)
Definition sweep_left_wide : list (@Call Cooldown) :=
  line_at_160 ++
  [CallUpdate no_motion; CallUpdate no_motion; CallUpdate no_motion;
   CallUpdate (frame 32 35); CallUpdate (frame 28 31);
   CallUpdate (frame 24 27); CallUpdate (frame 12 19)].

Definition after_sweep_left_wide : LineCrossingCounter Cooldown :=
  mkLCC (Float32.of_Z 160) Float32.zero Float32.c0_999 3 4 7 0 0
        [0; 7; 7; 0; 6; 5; 4] EmptyString cooldown_elapsed.

(** ** Notions used to state the long-run properties *)

(** The bins that [update] scans: every bin but the one on the line. *)
Definition active_bins : list Z := [-3; -2; -1; 1; 2; 3].

(** Column [c] belongs to the band of bin [i], the line being at column [x]
    and the bands [sp] columns wide. *)
Definition in_band (x sp i c : Z) : Prop :=
  exists j, 0 <= j < sp /\ c = x + i * sp + j.

(** The state in which slot [k] of the motion buffer holds [v]. *)
Definition with_slot {D : Type} (st : LineCrossingCounter D) (k v : Z)
  : LineCrossingCounter D :=
  with_t_motion st (_t st) (mset (_motion st) k v).

(** Calls that leave the lag as it is. *)
Definition keeps_lag {D : Type} (c : @Call D) : bool :=
  match c with
  | CallLag _ => false
  | _ => true
  end.

(** The region check on a grid of height [h] for the region bounds set by
    the constructor: [above] resolves to [h] and [below] to a row under it. *)
Definition default_region_ok (h : Z) : bool :=
  match Float32.to_uint16
          (Float32.sub (Float32.of_Z h) (resolve Float32.zero h)),
        Float32.to_uint16
          (Float32.sub (Float32.of_Z h) (resolve Float32.c0_999 h)) with
  | Some a, Some b => (a =? h) && (b <? h)
  | _, _ => false
  end.

(** The same for the [n] heights from [h] on. *)
Fixpoint heights_ok (n : nat) (h : Z) : bool :=
  match n with
  | O => true
  | S n' => default_region_ok h && heights_ok n' (h + 1)
  end.

(** * Properties *)

(** ** The pairwise score *)

Section Scores.

Context {D : Type} `{Debounces D}.

Lemma gt_cases (st : LineCrossingCounter D) (a b : Z) :
  gt st a b = 0 \/ gt st a b = 1 \/ gt st a b = 10.
Proof.
  unfold gt.
  destruct (_ || _ || _); [now left|].
  destruct (_ && _); [now right; right|].
  destruct (_ && _); [now right; left | now left].
Qed.

Lemma gt_unstamped_l (st : LineCrossingCounter D) (a b : Z) :
  bin st a = 0 -> gt st a b = 0.
Proof.
  unfold gt, bin; intros ->; reflexivity.
Qed.

Lemma gt_unstamped_r (st : LineCrossingCounter D) (a b : Z) :
  bin st b = 0 -> gt st a b = 0.
Proof.
  unfold gt, bin; intros ->.
  now rewrite Z.eqb_refl, orb_true_r.
Qed.

(** A strictly later stamp never scores 1. *)
Lemma gt_strict (st : LineCrossingCounter D) (a b : Z) :
  bin st b < bin st a -> gt st a b = 0 \/ gt st a b = 10.
Proof.
  unfold gt, bin; intros Hlt.
  destruct (_ || _ || _); [now left|].
  destruct (mget (_motion st) (a + 3) - mget (_motion st) (b + 3) <=? _lag st).
  - right. replace (_ >? _) with true; [reflexivity|].
    symmetry; apply Z.gtb_lt; exact Hlt.
  - left. now rewrite !andb_false_r.
Qed.

Lemma gt_strong (st : LineCrossingCounter D) (a b : Z) :
  0 < bin st b -> bin st b < bin st a -> bin st a - bin st b <= _lag st ->
  _t st - 2 * _lag st <= bin st a ->
  gt st a b = 10.
Proof.
  unfold gt, bin; intros Hb Hlt Hlag Hrecent.
  replace (_ || _ || _) with false.
  - replace (_ >? _) with true by (symmetry; apply Z.gtb_lt; lia).
    replace (_ <=? _) with true by (symmetry; apply Z.leb_le; lia).
    reflexivity.
  - symmetry. rewrite !orb_false_iff. repeat split.
    + apply Z.eqb_neq; lia.
    + apply Z.eqb_neq; lia.
    + apply Z.ltb_ge; lia.
Qed.

Lemma gt_weak (st : LineCrossingCounter D) (a b : Z) :
  0 < bin st b -> bin st a = bin st b -> 0 <= _lag st ->
  _t st - 2 * _lag st <= bin st a ->
  gt st a b = 1.
Proof.
  unfold gt, bin; intros Hb Heq Hlag Hrecent.
  replace (_ || _ || _) with false.
  - rewrite Heq.
    rewrite Z.gtb_ltb, Z.ltb_irrefl.
    replace (_ >=? _) with true by (symmetry; apply Z.geb_le; lia).
    replace (_ <=? _) with true by (symmetry; apply Z.leb_le; lia).
    reflexivity.
  - symmetry. rewrite !orb_false_iff. repeat split.
    + apply Z.eqb_neq; lia.
    + apply Z.eqb_neq; lia.
    + apply Z.ltb_ge; lia.
Qed.

Lemma accepts_iff (s : Z) :
  accepts s = true <-> 20 < s /\ s mod 10 <> 0.
Proof.
  unfold accepts. rewrite andb_true_iff.
  rewrite <- !Zgt_is_gt_bool.
  assert (0 <= s mod 10 < 10) by (apply Z.mod_pos_bound; lia).
  lia.
Qed.

Lemma to_uint8_small (z : Z) : 0 <= z <= 255 -> to_uint8 z = z.
Proof. intros; unfold to_uint8; apply Z.mod_small; lia. Qed.

Lemma ltr_score_sum (st : LineCrossingCounter D) :
  ltr_score st = gt st (-2) (-3) + gt st (-1) (-2) + gt st 1 (-1) + gt st 2 1.
Proof.
  unfold ltr_score. apply to_uint8_small.
  destruct (gt_cases st (-2) (-3)) as [-> | [-> | ->]];
    destruct (gt_cases st (-1) (-2)) as [-> | [-> | ->]];
    destruct (gt_cases st 1 (-1)) as [-> | [-> | ->]];
    destruct (gt_cases st 2 1) as [-> | [-> | ->]]; lia.
Qed.

Lemma rtl_score_sum (st : LineCrossingCounter D) :
  rtl_score st = gt st (-2) (-1) + gt st (-1) 1 + gt st 1 2 + gt st 2 3.
Proof.
  unfold rtl_score. apply to_uint8_small.
  destruct (gt_cases st (-2) (-1)) as [-> | [-> | ->]];
    destruct (gt_cases st (-1) 1) as [-> | [-> | ->]];
    destruct (gt_cases st 1 2) as [-> | [-> | ->]];
    destruct (gt_cases st 2 3) as [-> | [-> | ->]]; lia.
Qed.

End Scores.

(** ** The crossing queries *)

Section Crossing.

Context {D : Type} `{Debounces D}.

Lemma to_uint16_small (z : Z) : 0 <= z <= 65535 -> to_uint16 z = z.
Proof. intros; unfold to_uint16; apply Z.mod_small; lia. Qed.

Lemma crossedFromLeftToRight_eq (st : LineCrossingCounter D) :
  debounced (_debounces st) = true ->
  crossedFromLeftToRight st =
  if accepts (ltr_score st)
  then (true,
        mkLCC (_x st) (_miny st) (_maxy st) (_lag st) (_sparsity st) (_t st)
              (to_uint16 (_ltrCount st + 1)) (_rtlCount st) (_motion st)
              (_error st) (touch (_debounces st)))
  else (false, st).
Proof. unfold crossedFromLeftToRight; intros ->; reflexivity. Qed.

Lemma crossedFromRightToLeft_eq (st : LineCrossingCounter D) :
  debounced (_debounces st) = true ->
  crossedFromRightToLeft st =
  if accepts (rtl_score st)
  then (true,
        mkLCC (_x st) (_miny st) (_maxy st) (_lag st) (_sparsity st) (_t st)
              (_ltrCount st) (to_uint16 (_rtlCount st + 1)) (_motion st)
              (_error st) (touch (_debounces st)))
  else (false, st).
Proof. unfold crossedFromRightToLeft; intros ->; reflexivity. Qed.

Lemma crossedFromLeftToRight_rejects (st : LineCrossingCounter D) :
  accepts (ltr_score st) = false -> crossedFromLeftToRight st = (false, st).
Proof.
  unfold crossedFromLeftToRight; intros ->. now destruct (negb _).
Qed.

Lemma crossedFromRightToLeft_rejects (st : LineCrossingCounter D) :
  accepts (rtl_score st) = false -> crossedFromRightToLeft st = (false, st).
Proof.
  unfold crossedFromRightToLeft; intros ->. now destruct (negb _).
Qed.

Lemma not_debounced_ltr (st : LineCrossingCounter D) :
  debounced (_debounces st) = false -> crossedFromLeftToRight st = (false, st).
Proof. unfold crossedFromLeftToRight; intros ->; reflexivity. Qed.

(** C2.  With the debounce elapsed, each query adds the four scores of its
    direction, every score being 0, 1 or 10.  When the sum is above 20 and
    not a multiple of 10 the query returns [true], adds one to its own
    counter (a [uint16_t]), leaves the other counter alone and resets the
    debounce clock; in every other case it returns [false] and the state
    is unchanged. *)
Theorem crossing_accepts_iff (st : LineCrossingCounter D) :
  debounced (_debounces st) = true ->
  let sl := gt st (-2) (-3) + gt st (-1) (-2) + gt st 1 (-1) + gt st 2 1 in
  let sr := gt st (-2) (-1) + gt st (-1) 1 + gt st 1 2 + gt st 2 3 in
  (forall a b, In (gt st a b) [0; 1; 10]) /\
  (20 < sl /\ sl mod 10 <> 0 ->
   crossedFromLeftToRight st =
   (true, mkLCC (_x st) (_miny st) (_maxy st) (_lag st) (_sparsity st) (_t st)
                (to_uint16 (_ltrCount st + 1)) (_rtlCount st) (_motion st)
                (_error st) (touch (_debounces st)))) /\
  (~ (20 < sl /\ sl mod 10 <> 0) -> crossedFromLeftToRight st = (false, st)) /\
  (20 < sr /\ sr mod 10 <> 0 ->
   crossedFromRightToLeft st =
   (true, mkLCC (_x st) (_miny st) (_maxy st) (_lag st) (_sparsity st) (_t st)
                (_ltrCount st) (to_uint16 (_rtlCount st + 1)) (_motion st)
                (_error st) (touch (_debounces st)))) /\
  (~ (20 < sr /\ sr mod 10 <> 0) -> crossedFromRightToLeft st = (false, st)).
Proof.
  intros Hdeb sl sr.
  split.
  { intros a b. cbn [In].
    destruct (gt_cases st a b) as [-> | [-> | ->]]; auto. }
  rewrite (crossedFromLeftToRight_eq st Hdeb), (crossedFromRightToLeft_eq st Hdeb).
  rewrite ltr_score_sum, rtl_score_sum. fold sl sr.
  pose proof (accepts_iff sl) as Hl. pose proof (accepts_iff sr) as Hr.
  destruct (accepts sl), (accepts sr); repeat split; intros Hc;
    try reflexivity; exfalso;
    solve [ apply Hc; apply Hl; reflexivity
          | apply Hc; apply Hr; reflexivity
          | apply Hl in Hc; discriminate
          | apply Hr in Hc; discriminate ].
Qed.

(** C1, as the code has it.  Let bins -3, -2, -1, +1 be stamped in that
    order at strictly increasing ticks, each within the lag of the one
    before, with the debounce elapsed.  If bin +2 is unstamped the four
    scores are 0 or 10 each, their sum is a multiple of 10 and
    [crossedFromLeftToRight] returns [false] without changing anything.  If
    bin +2 carries the same stamp as bin +1, and the stamp of bin -2 is not
    older than [_t - 2 * _lag], the sum is 31: the query returns [true] and
    adds exactly one to the left-to-right counter, and a second query made
    while the debounce has not elapsed returns [false]. *)
Theorem left_to_right_sweep (st : LineCrossingCounter D) :
  debounced (_debounces st) = true ->
  0 < bin st (-3) ->
  bin st (-3) < bin st (-2) -> bin st (-2) - bin st (-3) <= _lag st ->
  bin st (-2) < bin st (-1) -> bin st (-1) - bin st (-2) <= _lag st ->
  bin st (-1) < bin st 1 -> bin st 1 - bin st (-1) <= _lag st ->
  (bin st 2 = 0 -> crossedFromLeftToRight st = (false, st)) /\
  (bin st 2 = bin st 1 -> _t st - 2 * _lag st <= bin st (-2) ->
   0 <= _ltrCount st < 65535 ->
   fst (crossedFromLeftToRight st) = true /\
   getLeftToRightCount (snd (crossedFromLeftToRight st)) = _ltrCount st + 1 /\
   getRightToLeftCount (snd (crossedFromLeftToRight st)) = _rtlCount st /\
   (debounced (_debounces (snd (crossedFromLeftToRight st))) = false ->
    fst (crossedFromLeftToRight (snd (crossedFromLeftToRight st))) = false)).
Proof.
  intros Hdeb H3 H32 L32 H21 L21 H11 L11. split.
  - intros H2. apply crossedFromLeftToRight_rejects.
    rewrite ltr_score_sum, (gt_unstamped_l st 2 1 H2).
    destruct (gt_strict st (-2) (-3) H32) as [-> | ->];
      destruct (gt_strict st (-1) (-2) H21) as [-> | ->];
      destruct (gt_strict st 1 (-1) H11) as [-> | ->]; reflexivity.
  - intros H2 Hrecent Hcount.
    assert (Hscore : ltr_score st = 31).
    { rewrite ltr_score_sum.
      rewrite (gt_strong st (-2) (-3)), (gt_strong st (-1) (-2)),
        (gt_strong st 1 (-1)), (gt_weak st 2 1); lia. }
    rewrite (crossedFromLeftToRight_eq st Hdeb), Hscore.
    cbn [accepts fst snd]. change (accepts 31) with true. cbn iota.
    cbn [fst snd getLeftToRightCount getRightToLeftCount _ltrCount _rtlCount _debounces].
    repeat split.
    + apply to_uint16_small; lia.
    + intros Hnot. now rewrite not_debounced_ltr.
Qed.

Lemma one_stamp (m : list Z) (i : nat) :
  nth i m 0 <> 0 -> (1 <= List.length (stamps m))%nat.
Proof.
  unfold stamps.
  revert i; induction m as [|a m IH]; intros [|i] Hi; cbn in *; try congruence.
  - destruct (Z.eqb_spec a 0); [congruence | cbn; lia].
  - specialize (IH i Hi). destruct (a =? 0); cbn; lia.
Qed.

Lemma two_stamps (m : list Z) (i j : nat) :
  i <> j -> nth i m 0 <> 0 -> nth j m 0 <> 0 ->
  (2 <= List.length (stamps m))%nat.
Proof.
  revert i j; induction m as [|a m IH]; intros [|i] [|j] Hij Hi Hj;
    unfold stamps in *; cbn in *; try congruence.
  - apply one_stamp in Hj. unfold stamps in Hj. destruct (Z.eqb_spec a 0); [congruence | cbn; lia].
  - apply one_stamp in Hi. unfold stamps in Hi. destruct (Z.eqb_spec a 0); [congruence | cbn; lia].
  - assert (i <> j) as Hne by congruence.
    specialize (IH i j Hne Hi Hj). destruct (a =? 0); cbn; lia.
Qed.

Lemma gt_single_stamp (st : LineCrossingCounter D) (a b : Z) :
  at_most_one_stamp (_motion st) = true ->
  Z.to_nat (a + 3) <> Z.to_nat (b + 3) ->
  gt st a b = 0.
Proof.
  intros Hone Hab.
  destruct (Z.eq_dec (bin st a) 0) as [Ha | Ha]; [now apply gt_unstamped_l|].
  destruct (Z.eq_dec (bin st b) 0) as [Hb | Hb]; [now apply gt_unstamped_r|].
  exfalso. unfold bin, mget in Ha, Hb.
  pose proof (two_stamps _ _ _ Hab Ha Hb) as H2.
  unfold at_most_one_stamp in Hone. apply Nat.leb_le in Hone. lia.
Qed.

(** C9.  When at most one of the slots of the motion buffer is non-zero,
    neither query reports a crossing and neither changes the state (the
    counters included), whatever the tick, the lag and the debounce state
    are. *)
Theorem single_bin_never_crosses (st : LineCrossingCounter D) :
  at_most_one_stamp (_motion st) = true ->
  crossedFromLeftToRight st = (false, st) /\
  crossedFromRightToLeft st = (false, st).
Proof.
  intros Hone. split.
  - apply crossedFromLeftToRight_rejects. rewrite ltr_score_sum.
    rewrite !(gt_single_stamp st) by (assumption || (cbn; lia)).
    reflexivity.
  - apply crossedFromRightToLeft_rejects. rewrite rtl_score_sum.
    rewrite !(gt_single_stamp st) by (assumption || (cbn; lia)).
    reflexivity.
Qed.

End Crossing.

(** The state after the wide sweep is accepted by the left-to-right query
    (score 31) and rejected by the right-to-left one. *)
Lemma crossing_accepts_iff_witness :
  debounced (_debounces after_sweep_right_wide) = true /\
  fst (crossedFromLeftToRight after_sweep_right_wide) = true /\
  crossedFromRightToLeft after_sweep_right_wide = (false, after_sweep_right_wide).
Proof.
  assert (Hdeb : debounced (_debounces after_sweep_right_wide) = true) by reflexivity.
  destruct (crossing_accepts_iff after_sweep_right_wide Hdeb) as (_ & Hl & _ & _ & Hr).
  split; [exact Hdeb|]. split.
  - rewrite Hl; [reflexivity | vm_compute; split; [reflexivity | discriminate]].
  - apply Hr. vm_compute. intros [Hlt _]. discriminate Hlt.
Defined.

Lemma left_to_right_sweep_witness :
  run sweep_right_wide fresh_counter = Some (7%nat, after_sweep_right_wide) /\
  fst (crossedFromLeftToRight after_sweep_right_wide) = true /\
  getLeftToRightCount (snd (crossedFromLeftToRight after_sweep_right_wide)) = 1.
Proof.
  split; [vm_compute; reflexivity|].
  assert (Hdeb : debounced (_debounces after_sweep_right_wide) = true) by reflexivity.
  destruct (left_to_right_sweep after_sweep_right_wide Hdeb) as [_ Hacc];
    try (vm_compute; (reflexivity || discriminate)).
  destruct Hacc as (Htrue & Hcount & _);
    try (vm_compute; (reflexivity || discriminate)).
  - vm_compute; split; [discriminate | reflexivity].
  - split; [exact Htrue | exact Hcount].
Defined.

(** C1 fails as stated.  Seven updates from construction stamp bins -3, -2,
    -1, +1 at ticks 4, 5, 6, 7 (lag 3) and leave bins +2 and +3 at zero; the
    debounce has elapsed; the score is 30 and the query returns [false]. *)
Lemma left_to_right_sweep_counterexample :
  run sweep_right fresh_counter = Some (7%nat, after_sweep_right) /\
  ~ (forall st : LineCrossingCounter Cooldown,
        debounced (_debounces st) = true ->
        0 < bin st (-3) ->
        bin st (-3) < bin st (-2) -> bin st (-2) - bin st (-3) <= _lag st ->
        bin st (-2) < bin st (-1) -> bin st (-1) - bin st (-2) <= _lag st ->
        bin st (-1) < bin st 1 -> bin st 1 - bin st (-1) <= _lag st ->
        bin st 2 = 0 -> bin st 3 = 0 ->
        fst (crossedFromLeftToRight st) = true).
Proof.
  split; [vm_compute; reflexivity|].
  intros Hclaim.
  assert (Hfalse : fst (crossedFromLeftToRight after_sweep_right) = false)
    by (vm_compute; reflexivity).
  rewrite Hclaim in Hfalse; try discriminate Hfalse; vm_compute;
    (reflexivity || discriminate).
Qed.

Lemma single_bin_never_crosses_witness :
  at_most_one_stamp [0; 0; 9; 0; 0; 0; 0] = true /\
  crossedFromLeftToRight
    (mkLCC Float32.zero Float32.zero Float32.c0_999 3 4 9 0 0
           [0; 0; 9; 0; 0; 0; 0] EmptyString cooldown_elapsed) =
  (false, mkLCC Float32.zero Float32.zero Float32.c0_999 3 4 9 0 0
                [0; 0; 9; 0; 0; 0; 0] EmptyString cooldown_elapsed).
Proof.
  split; [reflexivity|].
  apply (single_bin_never_crosses
           (mkLCC Float32.zero Float32.zero Float32.c0_999 3 4 9 0 0
                  [0; 0; 9; 0; 0; 0; 0] EmptyString cooldown_elapsed)).
  reflexivity.
Defined.

(** ** The sampling step *)

Section Update.

Context {D : Type} `{Debounces D}.

Lemma update_at_line_error (x a b : Z) (st : LineCrossingCounter D) (det : Detector) :
  x < 1 ->
  update_at x a b st det = (setErrorMessage "x-coordinate must be >= 8" st, []).
Proof.
  intros Hx. unfold update_at.
  now replace (x <? 1) with true by (symmetry; apply Z.ltb_lt; exact Hx).
Qed.

Lemma update_at_region_error (x a b : Z) (st : LineCrossingCounter D) (det : Detector) :
  1 <= x -> a <= b ->
  update_at x a b st det = (setErrorMessage "above/below limits mismatch" st, []).
Proof.
  intros Hx Hab. unfold update_at.
  replace (x <? 1) with false by (symmetry; apply Z.ltb_ge; exact Hx).
  now replace (b >=? a) with true by (symmetry; apply Z.geb_le; lia).
Qed.

Lemma update_at_valid (x a b : Z) (st : LineCrossingCounter D) (det : Detector) :
  1 <= x -> b < a ->
  update_at x a b st det =
  (true,
   mkLCC (_x st) (_miny st) (_maxy st) (_lag st) (_sparsity st)
         (next_tick (_t st)) (_ltrCount st) (_rtlCount st)
         (fst (update_bins det x a b (next_tick (_t st)) (_lag st) (_sparsity st)
                           bins (_motion st)))
         EmptyString (_debounces st),
   snd (update_bins det x a b (next_tick (_t st)) (_lag st) (_sparsity st)
                    bins (_motion st))).
Proof.
  intros Hx Hab. unfold update_at.
  replace (x <? 1) with false by (symmetry; apply Z.ltb_ge; exact Hx).
  replace (b >=? a) with false
    by (symmetry; rewrite Z.geb_leb; apply Z.leb_gt; exact Hab).
  now destruct (update_bins _ _ _ _ _ _ _ _ _).
Qed.

(** [update] is defined exactly when the three conversions are. *)
Lemma update_resolved (st : LineCrossingCounter D) (det : Detector) r :
  update st det = Some r ->
  exists x a b,
    resolve_x st det = Some x /\ resolve_above st det = Some a /\
    resolve_below st det = Some b /\ r = update_at x a b st det.
Proof.
  unfold update.
  destruct (resolve_x st det) as [x|]; [|discriminate].
  destruct (resolve_above st det) as [a|]; [|discriminate].
  destruct (resolve_below st det) as [b|]; [|discriminate].
  intros [= <-]. now exists x, a, b.
Qed.

(** C7.  Whenever the resolved line column is below 1, or the resolved
    below-row is not under the resolved above-row, [update] stores one of its
    two messages, returns [false], queries no cell and leaves the tick, the
    motion buffer and both counters as they were (the message is the only
    member that changes); and [update] returns [false] in these two cases
    only. *)
Theorem update_fails_iff (st st' : LineCrossingCounter D) (det : Detector)
        (r : bool) (tr : list (Z * Z)) :
  update st det = Some (r, st', tr) ->
  exists x a b,
    resolve_x st det = Some x /\ resolve_above st det = Some a /\
    resolve_below st det = Some b /\
    (r = false <-> x < 1 \/ b >= a) /\
    (r = false ->
     (_error st' = "x-coordinate must be >= 8"%string \/
      _error st' = "above/below limits mismatch"%string) /\
     _error st' <> EmptyString /\
     _t st' = _t st /\ _motion st' = _motion st /\
     _ltrCount st' = _ltrCount st /\ _rtlCount st' = _rtlCount st /\
     st' = snd (setErrorMessage (_error st') st) /\
     tr = []).
Proof.
  intros Hup. apply update_resolved in Hup as (x & a & b & Hx & Ha & Hb & Hr).
  exists x, a, b. repeat (split; [assumption|]).
  destruct (Z_lt_le_dec x 1) as [Hlt | Hge].
  - rewrite update_at_line_error in Hr by assumption.
    injection Hr as -> -> ->. cbn.
    repeat split; auto; try discriminate.
  - destruct (Z_le_gt_dec a b) as [Hle | Hgt].
    + rewrite update_at_region_error in Hr by assumption.
      injection Hr as -> -> ->. cbn.
      repeat split; auto; try discriminate. intros _. right. lia.
    + rewrite update_at_valid in Hr by lia.
      injection Hr as -> -> ->.
      split; [split; [discriminate | lia] | discriminate].
Qed.

(** *** The tick *)

Lemma next_tick_spec (t : Z) :
  0 <= t <= 65000 ->
  next_tick t = (if t + 1 >? 65000 then 1 else t + 1) /\
  to_uint16 (t + 1) = t + 1 /\
  1 <= next_tick t <= 65000.
Proof.
  intros Ht. unfold next_tick.
  assert (Hsmall : to_uint16 (t + 1) = t + 1)
    by (unfold to_uint16; apply Z.mod_small; lia).
  rewrite Hsmall. repeat split; try reflexivity.
  - destruct (Z.gtb_spec (t + 1) 65000); lia.
  - destruct (Z.gtb_spec (t + 1) 65000); lia.
Qed.

Lemma update_tick (st st' : LineCrossingCounter D) (det : Detector)
      (ok : bool) (tr : list (Z * Z)) :
  update st det = Some (ok, st', tr) ->
  _t st' = if ok then next_tick (_t st) else _t st.
Proof.
  intros Hup. apply update_resolved in Hup as (x & a & b & _ & _ & _ & Hr).
  destruct (Z_lt_le_dec x 1) as [Hlt | Hge].
  - rewrite update_at_line_error in Hr by assumption. now injection Hr as -> -> ->.
  - destruct (Z_le_gt_dec a b) as [Hle | Hgt].
    + rewrite update_at_region_error in Hr by assumption.
      now injection Hr as -> -> ->.
    + rewrite update_at_valid in Hr by lia. now injection Hr as -> -> ->.
Qed.

Lemma call_tick (c : Call) (st st' : LineCrossingCounter D) (ok : bool) :
  call c st = Some (ok, st') ->
  _t st' = if ok then next_tick (_t st) else _t st.
Proof.
  destruct c; cbn; try (intros [= <- <-]; reflexivity).
  - destruct (update st det) as [[[ok' st1] tr]|] eqn:Hup; [|discriminate].
    intros [= <- <-]. exact (update_tick _ _ _ _ _ Hup).
  - intros [= <- <-]. unfold crossedFromLeftToRight.
    destruct (negb _); [reflexivity|]. now destruct (accepts _).
  - intros [= <- <-]. unfold crossedFromRightToLeft.
    destruct (negb _); [reflexivity|]. now destruct (accepts _).
Qed.

(** After [n] successful updates the tick has been advanced [n] times. *)
Lemma run_tick (cs : list Call) :
  forall (st st' : LineCrossingCounter D) (n : nat),
    run cs st = Some (n, st') -> _t st' = Nat.iter n next_tick (_t st).
Proof.
  induction cs as [|c cs IH]; intros st st' n; cbn.
  - intros [= <- <-]. reflexivity.
  - destruct (call c st) as [[ok st1]|] eqn:Hc; [|discriminate].
    destruct (run cs st1) as [[k st2]|] eqn:Hr; [|discriminate].
    intros [= <- <-]. rewrite (IH _ _ _ Hr), (call_tick _ _ _ _ Hc).
    destruct ok; [|reflexivity]. now rewrite Nat.iter_succ_r.
Qed.

Lemma iter_tick_range (n : nat) :
  0 <= Nat.iter n next_tick 0 <= 65000 /\
  (n <> O -> 1 <= Nat.iter n next_tick 0).
Proof.
  induction n as [|n [IH _]].
  - split; [cbn [Nat.iter nat_rect]; lia | congruence].
  - change (Nat.iter (S n) next_tick 0) with (next_tick (Nat.iter n next_tick 0)).
    pose proof (next_tick_spec _ IH) as (_ & _ & Hrange). lia.
Qed.

(** C8.  After any sequence of calls on a freshly constructed object, with
    [n] successful updates among them: the tick is 0 when [n] is 0 and lies
    in 1..65000 otherwise; one more successful update sets it to the tick
    plus one, or to 1 when that would exceed 65000; and the increment never
    leaves the range of [uint16_t]. *)
Theorem tick_wraps_to_one (m0 : list Z) (d0 : D) (cs : list Call) (n : nat)
        (st : LineCrossingCounter D) :
  run cs (construct m0 d0) = Some (n, st) ->
  (n = O -> _t st = 0) /\
  (n <> O -> 1 <= _t st <= 65000) /\
  (_t st = 0 -> n = O) /\
  _t st + 1 <= 65535 /\
  forall det st' tr,
    update st det = Some (true, st', tr) ->
    _t st' = (if _t st + 1 >? 65000 then 1 else _t st + 1) /\
    1 <= _t st' <= 65000.
Proof.
  intros Hrun. apply run_tick in Hrun. cbn [construct _t] in Hrun.
  pose proof (iter_tick_range n) as [Hrange Hpos]. rewrite <- Hrun in Hrange, Hpos.
  split; [intros ->; exact Hrun|].
  split; [intros Hn; split; [now apply Hpos | lia]|].
  split.
  { intros Hz. destruct n; [reflexivity|].
    assert (1 <= _t st) by now apply Hpos. lia. }
  split; [lia|].
  intros det st' tr Hup. apply update_tick in Hup. rewrite Hup.
  pose proof (next_tick_spec _ Hrange) as (Hnext & _ & Hbounds).
  split; assumption.
Qed.

End Update.

(** ** The motion buffer during the scan *)

Section Buffer.

Lemma set_nth_length (n : nat) (v : Z) (m : list Z) :
  List.length (set_nth n v m) = List.length m.
Proof.
  revert n; induction m as [|a m IH]; intros [|n]; cbn; auto.
Qed.

Lemma nth_set_nth_same (n : nat) (v : Z) (m : list Z) :
  nth n (set_nth n v m) 0 = if (n <? List.length m)%nat then v else 0.
Proof.
  revert n; induction m as [|a m IH]; intros [|n]; cbn; auto.
Qed.

Lemma nth_set_nth_other (n k : nat) (v : Z) (m : list Z) :
  k <> n -> nth k (set_nth n v m) 0 = nth k m 0.
Proof.
  revert n k; induction m as [|a m IH]; intros [|n] [|k] Hk; cbn; auto;
    congruence.
Qed.

Lemma mset_length (m : list Z) (k v : Z) :
  List.length (mset m k v) = List.length m.
Proof. apply set_nth_length. Qed.

Lemma mget_nonneg (m : list Z) (k : Z) :
  Forall is_uint16 m -> 0 <= mget m k.
Proof.
  intros Hm. unfold mget.
  destruct (Nat.lt_ge_cases (Z.to_nat k) (List.length m)) as [Hlt | Hge].
  - rewrite Forall_forall in Hm. apply (Hm _ (nth_In m 0 Hlt)).
  - rewrite nth_overflow by assumption. lia.
Qed.

Lemma update_bin_fresh (det : Detector) (x a b t lg sp i : Z) (m : list Z) :
  fresh t lg m i = true -> update_bin det x a b t lg sp i m = (m, []).
Proof.
  intros Hf. unfold update_bin. rewrite Hf. now destruct (i =? 0).
Qed.

Lemma update_bins_all_fresh (det : Detector) (x a b t lg sp : Z) (m : list Z)
      (bs : list Z) :
  (forall i, fresh t lg m i = true) ->
  update_bins det x a b t lg sp bs m = (m, []).
Proof.
  intros Hf. induction bs as [|i bs IH]; cbn; [reflexivity|].
  now rewrite update_bin_fresh, IH by apply Hf.
Qed.

Lemma fresh_iff (t lg : Z) (m : list Z) (i : Z) :
  fresh t lg m i = true <-> t - lg <= mget m (i + 3).
Proof.
  unfold fresh. rewrite Z.geb_le. reflexivity.
Qed.

End Buffer.

Section WarmUp.

Context {D : Type} `{Debounces D}.

(** C10.  A successful [update] whose tick, once advanced, does not exceed
    the lag finds every bin fresh: it queries no cell of the grid, whatever
    the grid holds, and leaves every slot of the motion buffer as it was.
    (The tick is at least 1 after a successful update, so the lag is at
    least 1 here.) *)
Theorem warm_up_records_nothing (st st' : LineCrossingCounter D) (det : Detector)
        (tr : list (Z * Z)) :
  Forall is_uint16 (_motion st) ->
  update st det = Some (true, st', tr) ->
  _t st' <= _lag st ->
  _motion st' = _motion st /\ tr = [] /\
  (forall i, fresh (_t st') (_lag st) (_motion st) i = true).
Proof.
  intros Hm Hup Hwarm.
  pose proof (update_tick _ _ _ _ _ Hup) as Htick. cbn iota in Htick.
  assert (Hfresh : forall i, fresh (_t st') (_lag st) (_motion st) i = true).
  { intros i. apply fresh_iff. pose proof (mget_nonneg _ (i + 3) Hm). lia. }
  apply update_resolved in Hup as (x & a & b & _ & _ & _ & Hr).
  destruct (Z_lt_le_dec x 1) as [Hlt | Hge].
  { rewrite update_at_line_error in Hr by assumption. discriminate Hr. }
  destruct (Z_le_gt_dec a b) as [Hle | Hgt].
  { rewrite update_at_region_error in Hr by assumption. discriminate Hr. }
  rewrite update_at_valid in Hr by lia.
  rewrite <- Htick in Hr. rewrite update_bins_all_fresh in Hr by exact Hfresh.
  injection Hr as -> ->. cbn. auto.
Qed.

End WarmUp.

(** ** Each bin is scanned on its own slot *)

Section Bins.

Variable det : Detector.
Variables x a b t lg sp : Z.

Lemma scan_columns_S (i j : Z) (n : nat) (m : list Z) :
  scan_columns det x a b t sp i j (S n) m =
  if (to_int16 (i * sp + j) + x <? 0) || (to_int16 (i * sp + j) + x >? getWidth det)
  then scan_columns det x a b t sp i (j + 1) n m
  else
    let r := scan_rows det (to_int16 (i * sp + j) + x) b (Z.to_nat (a - b)) in
    let m' := if fst r then mset m (i + 3) t else m in
    if mget m' (i + 3) =? 0
    then (fst (scan_columns det x a b t sp i (j + 1) n m'),
          snd r ++ snd (scan_columns det x a b t sp i (j + 1) n m'))
    else (m', snd r).
Proof.
  cbn [scan_columns]. destruct (_ || _); [reflexivity|].
  destruct (scan_rows _ _ _ _) as [found tr]. cbn [fst snd].
  destruct (mget _ _ =? 0); [|reflexivity].
  now destruct (scan_columns _ _ _ _ _ _ _ _ _ _).
Qed.

Lemma update_bins_cons (i : Z) (bs : list Z) (m : list Z) :
  update_bins det x a b t lg sp (i :: bs) m =
  (fst (update_bins det x a b t lg sp bs (fst (update_bin det x a b t lg sp i m))),
   snd (update_bin det x a b t lg sp i m) ++
   snd (update_bins det x a b t lg sp bs (fst (update_bin det x a b t lg sp i m)))).
Proof.
  cbn [update_bins]. destruct (update_bin _ _ _ _ _ _ _ _ _) as [m' tr].
  cbn [fst snd]. now destruct (update_bins _ _ _ _ _ _ _ _ _).
Qed.

Lemma scan_columns_length (i : Z) (n : nat) :
  forall (j : Z) (m : list Z),
    List.length (fst (scan_columns det x a b t sp i j n m)) = List.length m.
Proof.
  induction n as [|n IH]; intros j m; [reflexivity|].
  rewrite scan_columns_S. destruct (_ || _); [apply IH|]. cbv zeta.
  assert (Hlen : List.length
                   (if fst (scan_rows det (to_int16 (i * sp + j) + x) b (Z.to_nat (a - b)))
                    then mset m (i + 3) t else m) = List.length m)
    by (destruct (fst _); [apply mset_length | reflexivity]).
  destruct (mget _ _ =? 0); cbn [fst]; [rewrite IH|]; exact Hlen.
Qed.

(** The scan of bin [i] writes slot [i + 3] only. *)
Lemma scan_columns_other (i : Z) (k : nat) (n : nat) :
  k <> Z.to_nat (i + 3) ->
  forall (j : Z) (m : list Z),
    nth k (fst (scan_columns det x a b t sp i j n m)) 0 = nth k m 0.
Proof.
  intros Hk. induction n as [|n IH]; intros j m; [reflexivity|].
  rewrite scan_columns_S. destruct (_ || _); [apply IH|]. cbv zeta.
  assert (Hnth : nth k
                   (if fst (scan_rows det (to_int16 (i * sp + j) + x) b (Z.to_nat (a - b)))
                    then mset m (i + 3) t else m) 0 = nth k m 0)
    by (destruct (fst _); [apply nth_set_nth_other; exact Hk | reflexivity]).
  destruct (mget _ _ =? 0); cbn [fst]; [rewrite IH|]; exact Hnth.
Qed.

(** The scan of bin [i] reads slot [i + 3] only. *)
Lemma scan_columns_slot (i : Z) (n : nat) :
  forall (j : Z) (m1 m2 : list Z),
    List.length m1 = List.length m2 ->
    mget m1 (i + 3) = mget m2 (i + 3) ->
    snd (scan_columns det x a b t sp i j n m1) =
    snd (scan_columns det x a b t sp i j n m2) /\
    mget (fst (scan_columns det x a b t sp i j n m1)) (i + 3) =
    mget (fst (scan_columns det x a b t sp i j n m2)) (i + 3).
Proof.
  induction n as [|n IH]; intros j m1 m2 Hlen Hslot; [now split|].
  rewrite !scan_columns_S. destruct (_ || _); [now apply IH|]. cbv zeta.
  set (r := scan_rows det (to_int16 (i * sp + j) + x) b (Z.to_nat (a - b))).
  set (m1' := if fst r then mset m1 (i + 3) t else m1).
  set (m2' := if fst r then mset m2 (i + 3) t else m2).
  assert (Hlen' : List.length m1' = List.length m2')
    by (subst m1' m2'; destruct (fst r); [now rewrite !mset_length | exact Hlen]).
  assert (Hslot' : mget m1' (i + 3) = mget m2' (i + 3)).
  { subst m1' m2'. destruct (fst r); [|exact Hslot].
    unfold mget, mset. now rewrite !nth_set_nth_same, Hlen. }
  rewrite Hslot'. destruct (mget m2' (i + 3) =? 0); cbn [fst snd].
  - destruct (IH (j + 1) m1' m2' Hlen' Hslot') as [-> ->]. now split.
  - now split.
Qed.

Lemma update_bin_length (i : Z) (m : list Z) :
  List.length (fst (update_bin det x a b t lg sp i m)) = List.length m.
Proof.
  unfold update_bin. destruct (i =? 0); [reflexivity|].
  destruct (fresh _ _ _ _); [reflexivity | apply scan_columns_length].
Qed.

Lemma update_bin_other (i : Z) (k : nat) (m : list Z) :
  k <> Z.to_nat (i + 3) ->
  nth k (fst (update_bin det x a b t lg sp i m)) 0 = nth k m 0.
Proof.
  intros Hk. unfold update_bin. destruct (i =? 0); [reflexivity|].
  destruct (fresh _ _ _ _); [reflexivity | now apply scan_columns_other].
Qed.

Lemma update_bin_slot (i : Z) (m1 m2 : list Z) :
  List.length m1 = List.length m2 ->
  mget m1 (i + 3) = mget m2 (i + 3) ->
  snd (update_bin det x a b t lg sp i m1) = snd (update_bin det x a b t lg sp i m2) /\
  mget (fst (update_bin det x a b t lg sp i m1)) (i + 3) =
  mget (fst (update_bin det x a b t lg sp i m2)) (i + 3).
Proof.
  intros Hlen Hslot. unfold update_bin, fresh. rewrite Hslot.
  destruct (i =? 0); [now split|].
  destruct (_ >=? _); [now split | now apply scan_columns_slot].
Qed.

Lemma update_bins_length (bs : list Z) :
  forall m, List.length (fst (update_bins det x a b t lg sp bs m)) = List.length m.
Proof.
  induction bs as [|i bs IH]; intros m; [reflexivity|].
  rewrite update_bins_cons. cbn [fst]. now rewrite IH, update_bin_length.
Qed.

Lemma update_bins_other (k : nat) (bs : list Z) :
  ~ In k (map (fun i => Z.to_nat (i + 3)) bs) ->
  forall m, nth k (fst (update_bins det x a b t lg sp bs m)) 0 = nth k m 0.
Proof.
  induction bs as [|i bs IH]; intros Hk m; [reflexivity|].
  rewrite update_bins_cons. cbn [fst]. cbn [map In] in Hk.
  rewrite IH by tauto. apply update_bin_other. intros ->. tauto.
Qed.

(** The loop over the bins amounts to one independent step per bin, each
    taken on the buffer as it was before the loop. *)
Lemma update_bins_independent (m0 : list Z) (bs : list Z) :
  NoDup (map (fun i => Z.to_nat (i + 3)) bs) ->
  forall m,
    List.length m = List.length m0 ->
    (forall i, In i bs -> mget m (i + 3) = mget m0 (i + 3)) ->
    snd (update_bins det x a b t lg sp bs m) =
    flat_map (fun i => snd (update_bin det x a b t lg sp i m0)) bs /\
    (forall i, In i bs ->
               mget (fst (update_bins det x a b t lg sp bs m)) (i + 3) =
               mget (fst (update_bin det x a b t lg sp i m0)) (i + 3)).
Proof.
  induction bs as [|i bs IH]; intros Hnd m Hlen Hsame.
  - split; [reflexivity | intros i []].
  - cbn [map] in Hnd. apply NoDup_cons_iff in Hnd as [Hfirst Hnd].
    rewrite update_bins_cons. cbn [fst snd flat_map].
    destruct (update_bin_slot i m m0 Hlen (Hsame i (or_introl eq_refl)))
      as [Htr Hslot].
    destruct (IH Hnd (fst (update_bin det x a b t lg sp i m))) as [IHtr IHslot].
    + now rewrite update_bin_length.
    + intros i' Hi'. unfold mget at 1. rewrite update_bin_other.
      * apply Hsame. now right.
      * intros Heq. apply Hfirst. rewrite <- Heq.
        now apply (in_map (fun i => Z.to_nat (i + 3))).
    + split; [now rewrite Htr, IHtr|].
      intros i' [<- | Hi']; [|now apply IHslot].
      unfold mget at 1. rewrite update_bins_other by exact Hfirst. exact Hslot.
Qed.

Lemma bins_slots_distinct : NoDup (map (fun i => Z.to_nat (i + 3)) bins).
Proof.
  cbn. repeat (constructor; [cbn; lia|]). constructor.
Qed.

End Bins.

(** ** What one update scans *)

(** C4 fails as stated.  On the first update after construction (tick 1,
    lag 3) every cell of the grid is foreground and the slot of bin -3 is 0,
    yet the guard holds, the bin is not scanned (no cell is queried at all)
    and the slot stays 0. *)
Lemma zero_slot_skipped_counterexample :
  bin line_set (-3) = 0 /\
  isForeground all_motion 8 0 = true /\
  fresh 1 3 (_motion line_set) (-3) = true /\
  update line_set all_motion =
  Some (true,
        mkLCC (Float32.of_Z 160) Float32.zero Float32.c0_999 3 4 1 0 0
              [0; 0; 0; 0; 0; 0; 0] EmptyString cooldown_elapsed,
        []) /\
  ~ (forall (st st' : LineCrossingCounter Cooldown) det tr i,
        update st det = Some (true, st', tr) ->
        In i [-3; -2; -1; 1; 2; 3] ->
        bin st i = 0 ->
        fresh (_t st') (_lag st) (_motion st) i = false).
Proof.
  repeat (split; [vm_compute; reflexivity|]).
  intros Hclaim.
  specialize (Hclaim line_set
                     (mkLCC (Float32.of_Z 160) Float32.zero Float32.c0_999 3 4 1 0 0
                            [0; 0; 0; 0; 0; 0; 0] EmptyString cooldown_elapsed)
                     all_motion [] (-3)).
  assert (Hfresh : fresh 1 3 [0; 0; 0; 0; 0; 0; 0] (-3) = true) by reflexivity.
  cbn [_t _lag _motion line_set lineAt with_config fresh_counter construct] in Hclaim.
  rewrite Hclaim in Hfresh; [discriminate Hfresh | vm_compute; reflexivity
                            | cbn [In]; left; reflexivity | reflexivity].
Qed.

(** ** The cells that are queried *)

Section Cells.

Variable det : Detector.
Variables x a b t lg sp : Z.

Lemma scan_rows_cells (col : Z) (n : nat) :
  forall y, Forall (fun q => fst q = col /\ y <= snd q < y + Z.of_nat n)
                   (snd (scan_rows det col y n)).
Proof.
  induction n as [|n IH]; intros y; cbn [scan_rows]; [constructor|].
  destruct (isForeground det col y).
  - cbn [snd]. constructor; [cbn; lia | constructor].
  - specialize (IH (y + 1)). destruct (scan_rows det col (y + 1) n) as [f tr].
    cbn [snd] in *. constructor; [cbn; lia|].
    eapply Forall_impl; [|exact IH]. cbn. intros q Hq. lia.
Qed.

(** Every column handed to [isForeground] lies in [0 .. width], the width
    included, and every row in [below .. above - 1]. *)
Lemma scan_columns_cells (i : Z) (n : nat) :
  forall j m, Forall (fun q => 0 <= fst q <= getWidth det /\ b <= snd q < Z.max a b)
                     (snd (scan_columns det x a b t sp i j n m)).
Proof.
  induction n as [|n IH]; intros j m; [constructor|].
  rewrite scan_columns_S.
  destruct (Z.ltb_spec (to_int16 (i * sp + j) + x) 0) as [Hlo | Hlo];
    [apply IH|].
  destruct (Z.gtb_spec (to_int16 (i * sp + j) + x) (getWidth det)) as [Hhi | Hhi];
    [apply IH|].
  cbn [orb]. cbv zeta.
  assert (Hrows : Forall (fun q => 0 <= fst q <= getWidth det /\ b <= snd q < Z.max a b)
                         (snd (scan_rows det (to_int16 (i * sp + j) + x) b
                                         (Z.to_nat (a - b))))).
  { eapply Forall_impl; [|apply scan_rows_cells]. cbn. intros q [-> Hq]. lia. }
  destruct (mget _ _ =? 0); cbn [snd]; [|exact Hrows].
  apply Forall_app. split; [exact Hrows | apply IH].
Qed.

Lemma update_bins_cells (bs : list Z) :
  forall m, Forall (fun q => 0 <= fst q <= getWidth det /\ b <= snd q < Z.max a b)
                   (snd (update_bins det x a b t lg sp bs m)).
Proof.
  induction bs as [|i bs IH]; intros m; [constructor|].
  rewrite update_bins_cons. cbn [snd]. apply Forall_app. split; [|apply IH].
  unfold update_bin. destruct (i =? 0); [constructor|].
  destruct (fresh _ _ _ _); [constructor | apply scan_columns_cells].
Qed.

End Cells.

Lemma cell_queried (c r : Z) (tr : list (Z * Z)) :
  existsb (fun q => (fst q =? c) && (snd q =? r)) tr = true -> In (c, r) tr.
Proof.
  intros Hex. apply existsb_exists in Hex as ([c' r'] & Hin & Heq).
  cbn [fst snd] in Heq. apply andb_true_iff in Heq as [Hc Hr].
  apply Z.eqb_eq in Hc, Hr. now subst.
Qed.

(** C5 fails on the code.  With the line at pixel 288 of a grid 40 columns
    wide (column 36, sparsity 4), the fourth update after construction scans
    bin +1 from column 36 + 4 = 40 on: the guard [dx + x > width] lets the
    column equal to the width through, and [isForeground] is called on column
    40, one past the last column of the grid. *)
Theorem column_equal_to_width_is_queried :
  run near_right_edge fresh_counter = Some (3%nat, warmed_up_near_right_edge) /\
  getWidth no_motion = 40 /\
  resolve_x warmed_up_near_right_edge no_motion = Some 36 /\
  exists st' tr,
    update warmed_up_near_right_edge no_motion = Some (true, st', tr) /\
    In (40, 0) tr /\
    Forall (fun q => 0 <= fst q <= 40) tr.
Proof.
  repeat (split; [vm_compute; reflexivity|]).
  exists (snd (fst (update_at 36 30 0 warmed_up_near_right_edge no_motion))),
         (snd (update_at 36 30 0 warmed_up_near_right_edge no_motion)).
  split; [vm_compute; reflexivity|].
  split.
  - apply cell_queried. vm_compute. reflexivity.
  - rewrite update_at_valid by lia. cbn [snd].
    eapply Forall_impl; [|apply update_bins_cells]. cbn. intros q Hq. lia.
Qed.

Lemma column_not_queried (c : Z) (tr : list (Z * Z)) :
  forallb (fun q => negb (fst q =? c)) tr = true -> forall r, ~ In (c, r) tr.
Proof.
  intros Hall r Hin. rewrite forallb_forall in Hall.
  specialize (Hall _ Hin). cbn [fst] in Hall. now rewrite Z.eqb_refl in Hall.
Qed.

(** C6 fails on the code.  The band of bin -3 is the columns 8 to 11.  The
    bin is stamped at tick 4 and is stale at tick 8, so it is scanned; the
    frame has foreground in column 9 only.  The scan queries column 8, finds
    nothing, and stops there because the slot still holds the old stamp 4:
    column 9 is never queried and the slot is not stamped with tick 8.  On a
    slot holding 0 the same frame is scanned up to column 9 and stamped. *)
Theorem stale_stamp_stops_the_scan :
  run stamp_then_rest fresh_counter = Some (7%nat, stale_bin) /\
  bin stale_bin (-3) = 4 /\
  fresh 8 3 (_motion stale_bin) (-3) = false /\
  isForeground (frame 9 9) 9 0 = true /\
  (exists st' tr,
      update stale_bin (frame 9 9) = Some (true, st', tr) /\
      _t st' = 8 /\
      In (8, 0) tr /\ (forall r, ~ In (9, r) tr) /\
      bin st' (-3) = 4) /\
  run warm_up fresh_counter = Some (3%nat, warmed_up) /\
  (exists st' tr,
      update warmed_up (frame 9 9) = Some (true, st', tr) /\
      _t st' = 4 /\
      In (8, 0) tr /\ In (9, 0) tr /\
      bin st' (-3) = 4).
Proof.
  repeat (split; [vm_compute; reflexivity|]).
  split.
  - exists (snd (fst (update_at 20 30 0 stale_bin (frame 9 9)))),
           (snd (update_at 20 30 0 stale_bin (frame 9 9))).
    split; [vm_compute; reflexivity|].
    split; [vm_compute; reflexivity|].
    split; [apply cell_queried; vm_compute; reflexivity|].
    split; [apply column_not_queried; vm_compute; reflexivity|].
    vm_compute; reflexivity.
  - split; [vm_compute; reflexivity|].
    exists (snd (fst (update_at 20 30 0 warmed_up (frame 9 9)))),
           (snd (update_at 20 30 0 warmed_up (frame 9 9))).
    split; [vm_compute; reflexivity|].
    split; [vm_compute; reflexivity|].
    split; [apply cell_queried; vm_compute; reflexivity|].
    split; [apply cell_queried; vm_compute; reflexivity|].
    vm_compute; reflexivity.
Qed.

(** ** Instances of the theorems on concrete calls *)

Lemma update_fails_iff_witness :
  update fresh_counter no_motion =
  Some (false, snd (setErrorMessage "x-coordinate must be >= 8" fresh_counter), []) /\
  resolve_x fresh_counter no_motion = Some 0 /\
  _t (snd (setErrorMessage "x-coordinate must be >= 8" fresh_counter)) = 0.
Proof.
  assert (Hup : update fresh_counter no_motion =
                Some (false,
                      snd (setErrorMessage "x-coordinate must be >= 8" fresh_counter),
                      [])) by (vm_compute; reflexivity).
  split; [exact Hup|]. split; [vm_compute; reflexivity|].
  destruct (update_fails_iff _ _ _ _ _ Hup) as (x & a & b & _ & _ & _ & _ & Hsame).
  destruct (Hsame eq_refl) as (_ & _ & Htick & _). exact Htick.
Defined.

Lemma tick_wraps_to_one_witness :
  run sweep_right fresh_counter = Some (7%nat, after_sweep_right) /\
  1 <= _t after_sweep_right <= 65000.
Proof.
  assert (Hrun : run sweep_right (construct [0; 0; 0; 0; 0; 0; 0] cooldown_elapsed) =
                 Some (7%nat, after_sweep_right)) by (vm_compute; reflexivity).
  split; [exact Hrun|].
  destruct (tick_wraps_to_one _ _ _ _ _ Hrun) as (_ & Hpos & _).
  apply Hpos. discriminate.
Defined.

Lemma warm_up_records_nothing_witness :
  update line_set all_motion =
  Some (true,
        mkLCC (Float32.of_Z 160) Float32.zero Float32.c0_999 3 4 1 0 0
              [0; 0; 0; 0; 0; 0; 0] EmptyString cooldown_elapsed,
        []) /\
  _motion (mkLCC (Float32.of_Z 160) Float32.zero Float32.c0_999 3 4 1 0 0
                 [0; 0; 0; 0; 0; 0; 0] EmptyString cooldown_elapsed) =
  _motion line_set.
Proof.
  assert (Hup : update line_set all_motion =
                Some (true,
                      mkLCC (Float32.of_Z 160) Float32.zero Float32.c0_999 3 4 1 0 0
                            [0; 0; 0; 0; 0; 0; 0] EmptyString cooldown_elapsed,
                      [])) by (vm_compute; reflexivity).
  split; [exact Hup|].
  refine (proj1 (warm_up_records_nothing _ _ _ _ _ Hup _)).
  - repeat constructor; vm_compute; discriminate.
  - vm_compute. discriminate.
Defined.

(** ** Resolving the configured coordinates *)

Section Resolve.

Lemma fexp_normal (z : Z) :
  -125 <= z -> fexp Float32.prec Float32.emax z = z - 24.
Proof. intros Hz. unfold fexp, emin, Float32.prec, Float32.emax. lia. Qed.

(** The mantissa of a float with [d] digits lies in [2^(d-1) .. 2^d - 1]. *)
Lemma digits2_pos_bounds (m : positive) :
  2 ^ (Z.pos (digits2_pos m) - 1) <= Z.pos m < 2 ^ Z.pos (digits2_pos m).
Proof.
  induction m as [m IH | m IH |]; cbn [digits2_pos]; [| |cbn; lia];
    rewrite Pos2Z.inj_succ;
    replace (Z.succ (Z.pos (digits2_pos m)) - 1)
      with (Z.succ (Z.pos (digits2_pos m) - 1)) by lia;
    rewrite !Z.pow_succ_r by lia; lia.
Qed.

(** Division by 8 is exact on normal numbers: the exponent drops by 3. *)
Lemma div_eight_exact (m : positive) (e : Z) :
  digits2_pos m = 24%positive -> -145 <= e <= 107 ->
  Float32.div (S754_finite false m e) Float32.eight = S754_finite false m (e - 3).
Proof.
  intros Hd He.
  change Float32.eight with (S754_finite false 8388608 (-20)).
  unfold Float32.div, SFdiv, SFdiv_core_binary.
  cbn [Zdigits2]. rewrite Hd.
  change (Z.pos (digits2_pos 8388608)) with 24.
  replace (24 + e - (24 + -20)) with (e + 20) by lia.
  rewrite fexp_normal by lia.
  replace (IntDef.Z.min (e + 20 - 24) (e - -20)) with (e - 4)
    by (change IntDef.Z.min with Z.min; lia).
  replace (e - -20 - (e - 4)) with 24 by lia.
  cbv iota.
  change (IntDef.Z.shiftl (Z.pos m) 24) with (Z.shiftl (Z.pos m) 24).
  rewrite Z.shiftl_mul_pow2 by lia.
  change (IntDef.Z.div_eucl (Z.pos m * 2 ^ 24) 8388608)
    with (Z.div_eucl (Z.pos m * 2 ^ 24) 8388608).
  assert (Hdiv : Z.div_eucl (Z.pos m * 2 ^ 24) 8388608 = (Z.pos m~0, 0)).
  { pose proof (Z.div_eucl_eq (Z.pos m * 2 ^ 24) 8388608 ltac:(lia)) as Heq.
    pose proof (Z.mod_pos_bound (Z.pos m * 2 ^ 24) 8388608 ltac:(lia)) as Hb.
    unfold Z.modulo in Hb.
    destruct (Z.div_eucl (Z.pos m * 2 ^ 24) 8388608) as [q r].
    change (2 ^ 24) with 16777216 in Heq.
    assert (q = Z.pos m~0 /\ r = 0) as [-> ->] by lia. reflexivity. }
  rewrite Hdiv.
  change (new_location 8388608 0) with loc_Exact.
  unfold binary_round_aux, shr_fexp. cbn [shr_record_of_loc Zdigits2 digits2_pos].
  rewrite Hd. change (Z.pos (Pos.succ 24)) with 25.
  rewrite fexp_normal by lia.
  replace (25 + (e - 4) - 24 - (e - 4)) with 1 by lia.
  cbn [shr iter_pos shr_1 shr_m loc_of_shr_record round_nearest_even Zdigits2 orb].
  rewrite Hd.
  replace (e - 4 + 1) with (e - 3) by lia.
  rewrite fexp_normal by lia.
  replace (24 + (e - 3) - 24 - (e - 3)) with 0 by lia.
  cbn [shr shr_m xorb].
  replace (e - 3 <=? Float32.emax - Float32.prec) with true; [reflexivity|].
  symmetry. apply Z.leb_le. unfold Float32.emax, Float32.prec. lia.
Qed.

(** A binary32 value that compares [>= 1] is positive and normal. *)
Lemma ge_one_normal (v : float) :
  Float32.valid v = true ->
  Float32.leb Float32.one v = true ->
  v = S754_infinity false \/
  exists m e, v = S754_finite false m e /\
              digits2_pos m = 24%positive /\ -23 <= e <= 104.
Proof.
  intros Hvalid Hle.
  change Float32.one with (S754_finite false 8388608 (-23)) in Hle.
  unfold Float32.leb, SFleb, SFcompare in Hle.
  destruct v as [s | s | | s m e]; try discriminate Hle.
  - destruct s; [discriminate Hle | now left].
  - right. exists m, e.
    destruct s; [discriminate Hle|].
    assert (He : -23 <= e).
    { destruct (Z.compare_spec (-23) e); first [lia | discriminate Hle]. }
    unfold Float32.valid, valid_binary, bounded, canonical_mantissa in Hvalid.
    apply andb_true_iff in Hvalid as [Hcanon Hmax].
    apply Z.eqb_eq in Hcanon. apply Z.leb_le in Hmax.
    unfold fexp, emin, Float32.prec, Float32.emax in *.
    repeat split; lia.
Qed.

Lemma trunc_finite (m : positive) (e : Z) :
  Float32.trunc (S754_finite false m e) =
  Some (if e <? 0 then Z.pos m / 2 ^ (- e) else Z.pos m * 2 ^ e).
Proof.
  destruct e as [|q|q]; reflexivity.
Qed.

Lemma trunc_div_eight (m : positive) (e : Z) :
  exists p,
    Float32.trunc (S754_finite false m e) = Some p /\ 0 <= p /\
    Float32.trunc (S754_finite false m (e - 3)) = Some (p / 8).
Proof.
  rewrite !trunc_finite. eexists. split; [reflexivity|].
  destruct (Z.ltb_spec e 0) as [Hneg | Hpos].
  - replace (e - 3 <? 0) with true by (symmetry; apply Z.ltb_lt; lia).
    split; [apply Z.div_pos; [lia | apply Z.pow_pos_nonneg; lia]|].
    f_equal. rewrite Z.div_div by (try apply Z.pow_pos_nonneg; lia).
    f_equal. replace (- (e - 3)) with (- e + 3) by lia.
    rewrite Z.pow_add_r by lia. reflexivity.
  - split; [apply Z.mul_nonneg_nonneg; [lia | apply Z.pow_nonneg; lia]|].
    f_equal. destruct (Z.ltb_spec (e - 3) 0) as [Hlt | Hge].
    + replace 8 with (2 ^ (- (e - 3)) * 2 ^ e).
      * rewrite Z.div_mul_cancel_r; try reflexivity;
          apply Z.pow_nonzero; lia.
      * rewrite <- Z.pow_add_r by lia. replace (- (e - 3) + e) with 3 by lia.
        reflexivity.
    + replace e with (e - 3 + 3) at 2 by lia.
      rewrite Z.pow_add_r by lia. change (2 ^ 3) with 8.
      rewrite Z.mul_assoc, Z.div_mul by lia. reflexivity.
Qed.

(** The integer part of a normal number with exponent at least -23 is at
    least 1. *)
Lemma trunc_ge_one (m : positive) (e : Z) (p : Z) :
  digits2_pos m = 24%positive -> -23 <= e ->
  Float32.trunc (S754_finite false m e) = Some p -> 1 <= p.
Proof.
  intros Hd He. rewrite trunc_finite. intros [= <-].
  pose proof (digits2_pos_bounds m) as [Hlo _]. rewrite Hd in Hlo.
  change (2 ^ (24 - 1)) with 8388608 in Hlo.
  destruct (Z.ltb_spec e 0) as [Hneg | Hpos].
  - apply Z.div_le_lower_bound; [apply Z.pow_pos_nonneg; lia|].
    rewrite Z.mul_1_r.
    assert (2 ^ (- e) <= 2 ^ 23) by (apply Z.pow_le_mono_r; lia).
    change (2 ^ 23) with 8388608 in *. lia.
  - pose proof (Z.pow_pos_nonneg 2 e ltac:(lia) Hpos) as Hpow.
    destruct (2 ^ e); lia.
Qed.

(** C3, as the code has it.  A configured value that compares [>= 1] is a
    pixel coordinate: it is divided by 8, exactly, whatever the grid
    dimension is, so that the resolved coordinate (before the inversion of
    the region bounds) has the integer part [p / 8] where [p >= 1] is the
    integer part of the configured value; converted to [uint16_t] it is
    [p / 8] when that fits.  A value that does not compare [>= 1] is
    multiplied by the grid width or height. *)
Theorem resolve_divides_pixels_by_eight (v : float) (dim : Z) :
  Float32.valid v = true ->
  (Float32.leb Float32.one v = true ->
   resolve v dim = Float32.div v Float32.eight /\
   (v = S754_infinity false \/
    exists p,
      Float32.trunc v = Some p /\ 1 <= p /\
      Float32.trunc (resolve v dim) = Some (p / 8) /\
      (p / 8 <= 65535 -> Float32.to_uint16 (resolve v dim) = Some (p / 8)))) /\
  (Float32.leb Float32.one v = false ->
   resolve v dim = Float32.mul v (Float32.of_Z dim)).
Proof.
  intros Hvalid. split; intros Hcmp; unfold resolve; rewrite Hcmp; [|reflexivity].
  split; [reflexivity|].
  destruct (ge_one_normal v Hvalid Hcmp) as [Hinf | (m & e & -> & Hd & He)];
    [now left | right].
  rewrite div_eight_exact by (assumption || lia).
  destruct (trunc_div_eight m e) as (p & Hp & Hp0 & Hp8).
  exists p. split; [exact Hp|].
  split; [exact (trunc_ge_one m e p Hd (proj1 He) Hp)|].
  split; [exact Hp8|].
  intros Hfit. unfold Float32.to_uint16. rewrite Hp8.
  assert (0 <= p / 8) by (apply Z.div_pos; lia).
  replace (0 <=? p / 8) with true by (symmetry; apply Z.leb_le; assumption).
  now replace (p / 8 <=? 65535) with true by (symmetry; apply Z.leb_le; assumption).
Qed.

End Resolve.

Lemma resolve_divides_pixels_by_eight_witness :
  Float32.valid (Float32.of_Z 160) = true /\
  resolve (Float32.of_Z 160) 40 = Float32.div (Float32.of_Z 160) Float32.eight.
Proof.
  split; [reflexivity|].
  destruct (resolve_divides_pixels_by_eight (Float32.of_Z 160) 40) as [Hge _].
  - reflexivity.
  - apply Hge. reflexivity.
Defined.

(** C3 fails as stated.  The value 160 is [>= 1]; it resolves to 20, not to
    160, and the line column of [update] is 20. *)
Lemma absolute_coordinate_counterexample :
  Float32.leb Float32.one (Float32.of_Z 160) = true /\
  resolve (Float32.of_Z 160) 40 = Float32.of_Z 20 /\
  resolve_x line_set no_motion = Some 20 /\
  ~ (forall v dim,
        Float32.valid v = true -> Float32.leb Float32.one v = true ->
        resolve v dim = v).
Proof.
  repeat (split; [vm_compute; reflexivity|]).
  intros Hclaim.
  specialize (Hclaim (Float32.of_Z 160) 40 eq_refl eq_refl).
  vm_compute in Hclaim. discriminate Hclaim.
Qed.

(** ** The member types are respected *)

Section Invariant.

Context {D : Type} `{Debounces D}.

Lemma to_uint8_range (z : Z) : is_uint8 (to_uint8 z).
Proof.
  unfold is_uint8, to_uint8.
  pose proof (Z.mod_pos_bound z 256 ltac:(lia)). lia.
Qed.

Lemma to_uint16_range (z : Z) : is_uint16 (to_uint16 z).
Proof.
  unfold is_uint16, to_uint16.
  pose proof (Z.mod_pos_bound z 65536 ltac:(lia)). lia.
Qed.

Lemma next_tick_range (t : Z) : is_uint16 (next_tick t).
Proof.
  unfold next_tick. pose proof (to_uint16_range (t + 1)) as Ht.
  unfold is_uint16 in *. destruct (Z.gtb_spec (to_uint16 (t + 1)) 65000); lia.
Qed.

Lemma set_nth_Forall (P : Z -> Prop) (n : nat) (v : Z) (m : list Z) :
  P v -> Forall P m -> Forall P (set_nth n v m).
Proof.
  intros Hv Hm. revert n. induction Hm as [|a m Ha Hm IH]; intros [|n]; cbn;
    constructor; auto.
Qed.

Lemma scan_columns_Forall (det : Detector) (x a b t sp i : Z) (n : nat) :
  is_uint16 t ->
  forall j m, Forall is_uint16 m ->
              Forall is_uint16 (fst (scan_columns det x a b t sp i j n m)).
Proof.
  intros Ht. induction n as [|n IH]; intros j m Hm; [exact Hm|].
  rewrite scan_columns_S. destruct (_ || _); [now apply IH|]. cbv zeta.
  assert (Hm' : Forall is_uint16
                       (if fst (scan_rows det (to_int16 (i * sp + j) + x) b
                                          (Z.to_nat (a - b)))
                        then mset m (i + 3) t else m))
    by (destruct (fst _); [now apply set_nth_Forall | exact Hm]).
  destruct (mget _ _ =? 0); cbn [fst]; [now apply IH | exact Hm'].
Qed.

Lemma update_bins_Forall (det : Detector) (x a b t lg sp : Z) (bs : list Z) :
  is_uint16 t ->
  forall m, Forall is_uint16 m ->
            Forall is_uint16 (fst (update_bins det x a b t lg sp bs m)).
Proof.
  intros Ht. induction bs as [|i bs IH]; intros m Hm; [exact Hm|].
  rewrite update_bins_cons. cbn [fst]. apply IH.
  unfold update_bin. destruct (i =? 0); [exact Hm|].
  destruct (fresh _ _ _ _); [exact Hm | now apply scan_columns_Forall].
Qed.

Ltac wf_fields :=
  unfold wf;
  repeat match goal with |- _ /\ _ => split end;
  try assumption.

Lemma update_wf (st st' : LineCrossingCounter D) (det : Detector) (r : bool)
      (tr : list (Z * Z)) :
  wf st -> update st det = Some (r, st', tr) -> wf st'.
Proof.
  intros (Hlag & Hsp & Ht & Hl & Hr & Hlen & Hm) Hup.
  apply update_resolved in Hup as (x & a & b & _ & _ & _ & Heq).
  destruct (Z_lt_le_dec x 1) as [Hlt | Hge].
  { rewrite update_at_line_error in Heq by assumption.
    injection Heq as -> -> ->. wf_fields. }
  destruct (Z_le_gt_dec a b) as [Hle | Hgt].
  { rewrite update_at_region_error in Heq by assumption.
    injection Heq as -> -> ->. wf_fields. }
  rewrite update_at_valid in Heq by lia.
  assert (Hst : st' =
                mkLCC (_x st) (_miny st) (_maxy st) (_lag st) (_sparsity st)
                      (next_tick (_t st)) (_ltrCount st) (_rtlCount st)
                      (fst (update_bins det x a b (next_tick (_t st)) (_lag st)
                                        (_sparsity st) bins (_motion st)))
                      EmptyString (_debounces st)) by congruence.
  rewrite Hst. wf_fields.
  - apply next_tick_range.
  - etransitivity; [apply update_bins_length | exact Hlen].
  - apply update_bins_Forall; [apply next_tick_range | exact Hm].
Qed.

Lemma crossedFromLeftToRight_wf (st : LineCrossingCounter D) :
  wf st -> wf (snd (crossedFromLeftToRight st)).
Proof.
  intros Hwf. unfold crossedFromLeftToRight.
  destruct (negb _); [exact Hwf|]. destruct (accepts _); [|exact Hwf].
  destruct Hwf as (Hlag & Hsp & Ht & Hl & Hr & Hlen & Hm).
  wf_fields. apply to_uint16_range.
Qed.

Lemma crossedFromRightToLeft_wf (st : LineCrossingCounter D) :
  wf st -> wf (snd (crossedFromRightToLeft st)).
Proof.
  intros Hwf. unfold crossedFromRightToLeft.
  destruct (negb _); [exact Hwf|]. destruct (accepts _); [|exact Hwf].
  destruct Hwf as (Hlag & Hsp & Ht & Hl & Hr & Hlen & Hm).
  wf_fields. apply to_uint16_range.
Qed.

Lemma call_wf (c : Call) (st st' : LineCrossingCounter D) (ok : bool) :
  wf st -> call c st = Some (ok, st') -> wf st'.
Proof.
  intros Hwf. destruct c; cbn [call];
    try (intros [= <- <-]; destruct Hwf as (Hlag & Hsp & Ht & Hl & Hr & Hlen & Hm);
         wf_fields; apply to_uint8_range).
  - destruct (update st det) as [[[r st1] tr]|] eqn:Hup; [|discriminate].
    intros [= <- <-]. exact (update_wf _ _ _ _ _ Hwf Hup).
  - intros [= <- <-]. now apply crossedFromLeftToRight_wf.
  - intros [= <- <-]. now apply crossedFromRightToLeft_wf.
Qed.

(** Every state reached from a well-formed one is well formed. *)
Lemma run_wf (cs : list Call) :
  forall (st st' : LineCrossingCounter D) (n : nat),
    wf st -> run cs st = Some (n, st') -> wf st'.
Proof.
  induction cs as [|c cs IH]; intros st st' n Hwf; cbn [run].
  - now intros [= <- <-].
  - destruct (call c st) as [[ok st1]|] eqn:Hc; [|discriminate].
    destruct (run cs st1) as [[k st2]|] eqn:Hr; [|discriminate].
    intros [= <- <-]. exact (IH _ _ _ (call_wf _ _ _ _ Hwf Hc) Hr).
Qed.

Lemma construct_wf (m0 : list Z) (d0 : D) :
  List.length m0 = 7%nat -> Forall is_uint16 m0 -> wf (construct m0 d0).
Proof.
  intros Hlen Hm. unfold wf, is_uint8, is_uint16. cbn. repeat split; auto; lia.
Qed.

End Invariant.

(** * Further properties of the class *)

(** ** What each operation leaves alone *)

Section Frame.

Context {D : Type} `{Debounces D}.

(** [update] writes the tick, the motion buffer and the error message only:
    whether it succeeds or fails, both counters, the debounce state and the
    five configuration members are as before, and on success the error
    message is empty. *)
Theorem update_keeps_counters_and_configuration
        (st st' : LineCrossingCounter D) (det : Detector) (r : bool)
        (tr : list (Z * Z)) :
  update st det = Some (r, st', tr) ->
  _ltrCount st' = _ltrCount st /\ _rtlCount st' = _rtlCount st /\
  _debounces st' = _debounces st /\
  _x st' = _x st /\ _miny st' = _miny st /\ _maxy st' = _maxy st /\
  _lag st' = _lag st /\ _sparsity st' = _sparsity st /\
  (r = true -> _error st' = EmptyString).
Proof.
  intros Hup. apply update_resolved in Hup as (x & a & b & _ & _ & _ & Hr).
  destruct (Z_lt_le_dec x 1) as [Hlt | Hge].
  { rewrite update_at_line_error in Hr by assumption.
    assert (Hst : (r, st') = setErrorMessage "x-coordinate must be >= 8" st) by congruence.
    unfold setErrorMessage in Hst. injection Hst as -> ->.
    repeat split; discriminate. }
  destruct (Z_le_gt_dec a b) as [Hle | Hgt].
  { rewrite update_at_region_error in Hr by assumption.
    assert (Hst : (r, st') = setErrorMessage "above/below limits mismatch" st) by congruence.
    unfold setErrorMessage in Hst. injection Hst as -> ->.
    repeat split; discriminate. }
  rewrite update_at_valid in Hr by lia.
  assert (Hst : st' =
                mkLCC (_x st) (_miny st) (_maxy st) (_lag st) (_sparsity st)
                      (next_tick (_t st)) (_ltrCount st) (_rtlCount st)
                      (fst (update_bins det x a b (next_tick (_t st)) (_lag st)
                                        (_sparsity st) bins (_motion st)))
                      EmptyString (_debounces st)) by congruence.
  rewrite Hst. repeat split.
Qed.

(** A crossing query never touches the tick, the motion buffer, the
    configuration or the error message, and never the counter of the other
    direction.  It changes the state exactly when it returns [true]: then
    the debounce had elapsed, its own counter is incremented (as a
    [uint16_t]) and the debounce clock is reset. *)
Theorem query_changes_only_its_counter (st : LineCrossingCounter D) :
  (fst (crossedFromLeftToRight st) = false -> snd (crossedFromLeftToRight st) = st) /\
  (fst (crossedFromLeftToRight st) = true ->
   debounced (_debounces st) = true /\
   snd (crossedFromLeftToRight st) =
   mkLCC (_x st) (_miny st) (_maxy st) (_lag st) (_sparsity st) (_t st)
         (to_uint16 (_ltrCount st + 1)) (_rtlCount st) (_motion st)
         (_error st) (touch (_debounces st))) /\
  (fst (crossedFromRightToLeft st) = false -> snd (crossedFromRightToLeft st) = st) /\
  (fst (crossedFromRightToLeft st) = true ->
   debounced (_debounces st) = true /\
   snd (crossedFromRightToLeft st) =
   mkLCC (_x st) (_miny st) (_maxy st) (_lag st) (_sparsity st) (_t st)
         (_ltrCount st) (to_uint16 (_rtlCount st + 1)) (_motion st)
         (_error st) (touch (_debounces st))).
Proof.
  unfold crossedFromLeftToRight, crossedFromRightToLeft.
  destruct (debounced (_debounces st)); cbn [negb].
  - destruct (accepts (ltr_score st)), (accepts (rtl_score st)); cbn [fst snd];
      repeat split; intros; reflexivity || discriminate.
  - cbn [fst snd]. repeat split; intros; reflexivity || discriminate.
Qed.

Lemma not_debounced_rtl (st : LineCrossingCounter D) :
  debounced (_debounces st) = false -> crossedFromRightToLeft st = (false, st).
Proof. unfold crossedFromRightToLeft; intros ->; reflexivity. Qed.

Lemma accepted_ltr_state (st : LineCrossingCounter D) :
  fst (crossedFromLeftToRight st) = true ->
  _debounces (snd (crossedFromLeftToRight st)) = touch (_debounces st).
Proof.
  unfold crossedFromLeftToRight. destruct (negb _); [discriminate|].
  destruct (accepts _); [reflexivity | discriminate].
Qed.

Lemma accepted_rtl_state (st : LineCrossingCounter D) :
  fst (crossedFromRightToLeft st) = true ->
  _debounces (snd (crossedFromRightToLeft st)) = touch (_debounces st).
Proof.
  unfold crossedFromRightToLeft. destruct (negb _); [discriminate|].
  destruct (accepts _); [reflexivity | discriminate].
Qed.

(** The two directions share one debounce clock.  When resetting the clock
    leaves the cooldown unelapsed, a crossing accepted in either direction
    makes the next query of both directions return [false] and change
    nothing, whatever the buffer holds. *)
Theorem accepted_crossing_blocks_both_directions (st : LineCrossingCounter D) :
  debounced (touch (_debounces st)) = false ->
  (fst (crossedFromLeftToRight st) = true ->
   crossedFromLeftToRight (snd (crossedFromLeftToRight st)) =
   (false, snd (crossedFromLeftToRight st)) /\
   crossedFromRightToLeft (snd (crossedFromLeftToRight st)) =
   (false, snd (crossedFromLeftToRight st))) /\
  (fst (crossedFromRightToLeft st) = true ->
   crossedFromLeftToRight (snd (crossedFromRightToLeft st)) =
   (false, snd (crossedFromRightToLeft st)) /\
   crossedFromRightToLeft (snd (crossedFromRightToLeft st)) =
   (false, snd (crossedFromRightToLeft st))).
Proof.
  intros Hcool. split; intros Hacc.
  - apply accepted_ltr_state in Hacc.
    split; [apply not_debounced_ltr | apply not_debounced_rtl];
      now rewrite Hacc.
  - apply accepted_rtl_state in Hacc.
    split; [apply not_debounced_ltr | apply not_debounced_rtl];
      now rewrite Hacc.
Qed.

End Frame.

Lemma accepted_crossing_blocks_both_directions_witness :
  debounced (touch (_debounces after_sweep_right_wide)) = false /\
  fst (crossedFromLeftToRight after_sweep_right_wide) = true /\
  fst (crossedFromRightToLeft (snd (crossedFromLeftToRight after_sweep_right_wide)))
  = false.
Proof.
  assert (Hcool : debounced (touch (_debounces after_sweep_right_wide)) = false)
    by reflexivity.
  assert (Hacc : fst (crossedFromLeftToRight after_sweep_right_wide) = true)
    by reflexivity.
  split; [exact Hcool|]. split; [exact Hacc|].
  destruct (accepted_crossing_blocks_both_directions after_sweep_right_wide Hcool)
    as [Hltr _].
  destruct (Hltr Hacc) as [_ Hrtl]. rewrite Hrtl. reflexivity.
Defined.

Lemma update_keeps_counters_and_configuration_witness :
  update stale_bin (frame 9 9) =
  Some (update_at 20 30 0 stale_bin (frame 9 9)) /\
  _ltrCount (snd (fst (update_at 20 30 0 stale_bin (frame 9 9)))) = 0.
Proof.
  assert (Hup : update stale_bin (frame 9 9) =
                Some (fst (fst (update_at 20 30 0 stale_bin (frame 9 9))),
                      snd (fst (update_at 20 30 0 stale_bin (frame 9 9))),
                      snd (update_at 20 30 0 stale_bin (frame 9 9))))
    by (vm_compute; reflexivity).
  split; [vm_compute; reflexivity|].
  destruct (update_keeps_counters_and_configuration _ _ _ _ _ Hup) as (Hl & _).
  exact Hl.
Defined.

(** ** What the scores mean *)

Section Evidence.

Context {D : Type} `{Debounces D}.

Lemma gt_strong_inv (st : LineCrossingCounter D) (a b : Z) :
  gt st a b = 10 ->
  bin st b <> 0 /\ bin st b < bin st a /\ bin st a - bin st b <= _lag st /\
  _t st - 2 * _lag st <= bin st a.
Proof.
  unfold gt, bin.
  destruct (Z.eqb_spec (mget (_motion st) (a + 3)) 0); [discriminate|].
  destruct (Z.eqb_spec (mget (_motion st) (b + 3)) 0); [discriminate|].
  destruct (Z.ltb_spec (mget (_motion st) (a + 3)) (_t st - 2 * _lag st));
    [discriminate|].
  cbn [orb].
  destruct (Z.gtb_spec (mget (_motion st) (a + 3)) (mget (_motion st) (b + 3)));
    destruct (Z.leb_spec (mget (_motion st) (a + 3) - mget (_motion st) (b + 3))
                         (_lag st));
    cbn [andb]; try (destruct (_ >=? _); discriminate).
  intros _. lia.
Qed.

Lemma gt_weak_inv (st : LineCrossingCounter D) (a b : Z) :
  gt st a b = 1 ->
  bin st a = bin st b /\ bin st a <> 0 /\ 0 <= _lag st /\
  _t st - 2 * _lag st <= bin st a.
Proof.
  unfold gt, bin.
  destruct (Z.eqb_spec (mget (_motion st) (a + 3)) 0); [discriminate|].
  destruct (Z.eqb_spec (mget (_motion st) (b + 3)) 0); [discriminate|].
  destruct (Z.ltb_spec (mget (_motion st) (a + 3)) (_t st - 2 * _lag st));
    [discriminate|].
  cbn [orb].
  destruct (Z.gtb_spec (mget (_motion st) (a + 3)) (mget (_motion st) (b + 3)));
    destruct (Z.leb_spec (mget (_motion st) (a + 3) - mget (_motion st) (b + 3))
                         (_lag st));
    cbn [andb]; try discriminate;
    destruct (Z.geb_spec (mget (_motion st) (a + 3)) (mget (_motion st) (b + 3)));
    try discriminate.
  intros _. lia.
Qed.

Lemma gt_equal_stamps (st : LineCrossingCounter D) (a b : Z) :
  bin st a = bin st b -> bin st a <> 0 -> 0 <= _lag st ->
  _t st - 2 * _lag st <= bin st a ->
  gt st a b = 1.
Proof.
  unfold gt, bin; intros Heq Hne Hlag Hrecent. rewrite <- Heq.
  replace (_ || _ || _) with false.
  - rewrite Z.gtb_ltb, Z.ltb_irrefl.
    replace (_ >=? _) with true by (symmetry; apply Z.geb_le; lia).
    replace (_ <=? _) with true by (symmetry; apply Z.leb_le; lia).
    reflexivity.
  - symmetry. rewrite !orb_false_iff. repeat split.
    + apply Z.eqb_neq; lia.
    + apply Z.eqb_neq; lia.
    + apply Z.ltb_ge; lia.
Qed.

(** A pair scores in one direction at most, unless the two stamps are equal:
    when [a] is scored as clearly after [b] (score 10), [b] is not scored as
    after [a] at all; and the weak score 1, given to equal stamps, is
    symmetric. *)
Theorem score_is_directional (st : LineCrossingCounter D) (a b : Z) :
  (gt st a b = 10 -> gt st b a = 0) /\
  (gt st a b = 1 -> gt st b a = 1).
Proof.
  split; intros Hgt.
  - apply gt_strong_inv in Hgt as (Hb & Hlt & _ & _).
    destruct (gt_cases st b a) as [H0 | [H1 | H10]]; [exact H0| |].
    + apply gt_weak_inv in H1. lia.
    + apply gt_strong_inv in H10. lia.
  - apply gt_weak_inv in Hgt as (Heq & Hne & Hlag & Hrecent).
    apply gt_equal_stamps; lia.
Qed.

Lemma accepted_sums (g1 g2 g3 g4 : Z) :
  (g1 = 0 \/ g1 = 1 \/ g1 = 10) -> (g2 = 0 \/ g2 = 1 \/ g2 = 10) ->
  (g3 = 0 \/ g3 = 1 \/ g3 = 10) -> (g4 = 0 \/ g4 = 1 \/ g4 = 10) ->
  accepts (g1 + g2 + g3 + g4) = true ->
  In (g1 + g2 + g3 + g4) [21; 22; 31] /\
  (g1 = 1 \/ g2 = 1 \/ g3 = 1 \/ g4 = 1).
Proof.
  intros [-> | [-> | ->]] [-> | [-> | ->]] [-> | [-> | ->]] [-> | [-> | ->]];
    vm_compute; intros Hacc; try discriminate Hacc; split; tauto.
Qed.

Lemma accepted_ltr_score (st : LineCrossingCounter D) :
  fst (crossedFromLeftToRight st) = true -> accepts (ltr_score st) = true.
Proof.
  unfold crossedFromLeftToRight. destruct (negb _); [discriminate|].
  destruct (accepts _); [reflexivity | discriminate].
Qed.

Lemma accepted_rtl_score (st : LineCrossingCounter D) :
  fst (crossedFromRightToLeft st) = true -> accepts (rtl_score st) = true.
Proof.
  unfold crossedFromRightToLeft. destruct (negb _); [discriminate|].
  destruct (accepts _); [reflexivity | discriminate].
Qed.

(** A crossing is reported only on the sums 21, 22 and 31, that is on two or
    three strong pairs together with at least one weak pair: at least one of
    the four compared pairs of bins carries the same non-zero stamp in both
    bins.  Stamps that are all different never make a crossing. *)
Theorem crossing_needs_a_simultaneous_pair (st : LineCrossingCounter D) :
  (fst (crossedFromLeftToRight st) = true ->
   In (gt st (-2) (-3) + gt st (-1) (-2) + gt st 1 (-1) + gt st 2 1) [21; 22; 31] /\
   ((bin st (-2) = bin st (-3) /\ bin st (-2) <> 0) \/
    (bin st (-1) = bin st (-2) /\ bin st (-1) <> 0) \/
    (bin st 1 = bin st (-1) /\ bin st 1 <> 0) \/
    (bin st 2 = bin st 1 /\ bin st 2 <> 0))) /\
  (fst (crossedFromRightToLeft st) = true ->
   In (gt st (-2) (-1) + gt st (-1) 1 + gt st 1 2 + gt st 2 3) [21; 22; 31] /\
   ((bin st (-2) = bin st (-1) /\ bin st (-2) <> 0) \/
    (bin st (-1) = bin st 1 /\ bin st (-1) <> 0) \/
    (bin st 1 = bin st 2 /\ bin st 1 <> 0) \/
    (bin st 2 = bin st 3 /\ bin st 2 <> 0))).
Proof.
  split; intros Hacc.
  - apply accepted_ltr_score in Hacc. rewrite ltr_score_sum in Hacc.
    destruct (accepted_sums _ _ _ _ (gt_cases st (-2) (-3)) (gt_cases st (-1) (-2))
                            (gt_cases st 1 (-1)) (gt_cases st 2 1) Hacc)
      as [Hsum Hweak].
    split; [exact Hsum|].
    destruct Hweak as [Hw | [Hw | [Hw | Hw]]]; apply gt_weak_inv in Hw; tauto.
  - apply accepted_rtl_score in Hacc. rewrite rtl_score_sum in Hacc.
    destruct (accepted_sums _ _ _ _ (gt_cases st (-2) (-1)) (gt_cases st (-1) 1)
                            (gt_cases st 1 2) (gt_cases st 2 3) Hacc)
      as [Hsum Hweak].
    split; [exact Hsum|].
    destruct Hweak as [Hw | [Hw | [Hw | Hw]]]; apply gt_weak_inv in Hw; tauto.
Qed.

Lemma gt_with_slot (st : LineCrossingCounter D) (k v a b : Z) :
  Z.to_nat (a + 3) <> Z.to_nat k -> Z.to_nat (b + 3) <> Z.to_nat k ->
  gt (with_slot st k v) a b = gt st a b.
Proof.
  intros Ha Hb. unfold gt, with_slot, with_t_motion, mget, mset.
  cbn [_motion _t _lag].
  now rewrite !nth_set_nth_other by assumption.
Qed.

(** The left-to-right query reads the bins -3 to +2 only and the
    right-to-left query the bins -2 to +3 only: whatever is written in the
    slot of bin +3 (or of the bin on the line) does not change the answer of
    the former, nor does the slot of bin -3 (or of the bin on the line)
    change the answer of the latter. *)
Theorem far_bin_is_not_read (st : LineCrossingCounter D) (v : Z) :
  fst (crossedFromLeftToRight (with_slot st 6 v)) = fst (crossedFromLeftToRight st) /\
  fst (crossedFromLeftToRight (with_slot st 3 v)) = fst (crossedFromLeftToRight st) /\
  fst (crossedFromRightToLeft (with_slot st 0 v)) = fst (crossedFromRightToLeft st) /\
  fst (crossedFromRightToLeft (with_slot st 3 v)) = fst (crossedFromRightToLeft st).
Proof.
  assert (Hl : forall k, k = 6 \/ k = 3 -> ltr_score (with_slot st k v) = ltr_score st).
  { intros k Hk. unfold ltr_score.
    rewrite !gt_with_slot by (destruct Hk as [-> | ->]; cbn; lia). reflexivity. }
  assert (Hr : forall k, k = 0 \/ k = 3 -> rtl_score (with_slot st k v) = rtl_score st).
  { intros k Hk. unfold rtl_score.
    rewrite !gt_with_slot by (destruct Hk as [-> | ->]; cbn; lia). reflexivity. }
  unfold crossedFromLeftToRight, crossedFromRightToLeft.
  rewrite !Hl, !Hr by tauto.
  change (_debounces (with_slot st 6 v)) with (_debounces st).
  change (_debounces (with_slot st 3 v)) with (_debounces st).
  change (_debounces (with_slot st 0 v)) with (_debounces st).
  destruct (negb _), (accepts (ltr_score st)), (accepts (rtl_score st));
    repeat split.
Qed.

End Evidence.

Lemma crossing_needs_a_simultaneous_pair_witness :
  fst (crossedFromLeftToRight after_sweep_right_wide) = true /\
  In (gt after_sweep_right_wide (-2) (-3) + gt after_sweep_right_wide (-1) (-2) +
      gt after_sweep_right_wide 1 (-1) + gt after_sweep_right_wide 2 1)
     [21; 22; 31].
Proof.
  assert (Hacc : fst (crossedFromLeftToRight after_sweep_right_wide) = true)
    by reflexivity.
  split; [exact Hacc|].
  destruct (crossing_needs_a_simultaneous_pair after_sweep_right_wide) as [Hltr _].
  exact (proj1 (Hltr Hacc)).
Defined.

Lemma score_is_directional_witness :
  gt after_sweep_right_wide (-2) (-3) = 10 /\
  gt after_sweep_right_wide (-3) (-2) = 0.
Proof.
  assert (Hgt : gt after_sweep_right_wide (-2) (-3) = 10) by reflexivity.
  split; [exact Hgt|].
  exact (proj1 (score_is_directional after_sweep_right_wide (-2) (-3)) Hgt).
Defined.

(** ** What the scan finds *)

Section Rows.

Variable det : Detector.

Lemma scan_rows_found (col : Z) (n : nat) :
  forall y,
    fst (scan_rows det col y n) = true ->
    exists r, y <= r < y + Z.of_nat n /\ isForeground det col r = true /\
              In (col, r) (snd (scan_rows det col y n)).
Proof.
  induction n as [|n IH]; intros y; cbn [scan_rows]; [discriminate|].
  destruct (isForeground det col y) eqn:Hfg.
  - intros _. exists y. cbn [snd In]. repeat split; auto; lia.
  - specialize (IH (y + 1)). destruct (scan_rows det col (y + 1) n) as [f tr].
    cbn [fst snd] in *. intros Hf. destruct (IH Hf) as (r & Hr & Hfgr & Hin).
    exists r. repeat split; auto; try lia. now right.
Qed.

Lemma scan_rows_finds (col : Z) (n : nat) :
  forall y r,
    y <= r < y + Z.of_nat n -> isForeground det col r = true ->
    fst (scan_rows det col y n) = true.
Proof.
  induction n as [|n IH]; intros y r Hr Hfg; cbn [scan_rows]; [lia|].
  destruct (isForeground det col y) eqn:Hy; [reflexivity|].
  assert (r <> y) by congruence.
  specialize (IH (y + 1) r ltac:(lia) Hfg).
  destruct (scan_rows det col (y + 1) n) as [f tr]. exact IH.
Qed.

Lemma scan_rows_length (col : Z) (n : nat) :
  forall y, (List.length (snd (scan_rows det col y n)) <= n)%nat.
Proof.
  induction n as [|n IH]; intros y; cbn [scan_rows]; [cbn; lia|].
  destruct (isForeground det col y); [cbn; lia|].
  specialize (IH (y + 1)). destruct (scan_rows det col (y + 1) n) as [f tr].
  cbn [snd List.length] in *. lia.
Qed.

Lemma scan_rows_quiet (col : Z) (n : nat) :
  (forall c r, isForeground det c r = false) ->
  forall y, fst (scan_rows det col y n) = false.
Proof.
  intros Hq. induction n as [|n IH]; intros y; cbn [scan_rows]; [reflexivity|].
  rewrite Hq. specialize (IH (y + 1)).
  destruct (scan_rows det col (y + 1) n) as [f tr]. exact IH.
Qed.

End Rows.

Section Columns.

Variable det : Detector.
Variables x a b t lg sp : Z.

Lemma to_int16_small (z : Z) : -32768 <= z <= 32767 -> to_int16 z = z.
Proof.
  intros Hz. unfold to_int16. rewrite Z.mod_small by lia. lia.
Qed.

(** A slot either keeps its value or receives the tick. *)
Lemma scan_columns_value (i : Z) (k : nat) (n : nat) :
  forall j m,
    nth k (fst (scan_columns det x a b t sp i j n m)) 0 = nth k m 0 \/
    nth k (fst (scan_columns det x a b t sp i j n m)) 0 = t.
Proof.
  induction n as [|n IH]; intros j m; [now left|].
  rewrite scan_columns_S. destruct (_ || _); [apply IH|]. cbv zeta.
  set (r := scan_rows det (to_int16 (i * sp + j) + x) b (Z.to_nat (a - b))).
  assert (Hm' : nth k (if fst r then mset m (i + 3) t else m) 0 = nth k m 0 \/
                nth k (if fst r then mset m (i + 3) t else m) 0 = t).
  { destruct (fst r); [|now left]. unfold mset.
    destruct (Nat.eq_dec k (Z.to_nat (i + 3))) as [-> | Hne].
    - rewrite nth_set_nth_same.
      destruct (Nat.ltb_spec (Z.to_nat (i + 3)) (List.length m)); [now right|].
      left. symmetry. now apply nth_overflow.
    - left. now apply nth_set_nth_other. }
  destruct (mget _ _ =? 0); cbn [fst]; [|exact Hm'].
  destruct (IH (j + 1) (if fst r then mset m (i + 3) t else m)) as [-> | ->];
    [exact Hm' | now right].
Qed.

(** The slot of the bin changes only if a foreground cell was queried in one
    of its columns. *)
Lemma scan_columns_sound (i : Z) (n : nat) :
  forall j m,
    mget (fst (scan_columns det x a b t sp i j n m)) (i + 3) <> mget m (i + 3) ->
    exists j' r,
      j <= j' < j + Z.of_nat n /\
      In (to_int16 (i * sp + j') + x, r) (snd (scan_columns det x a b t sp i j n m)) /\
      isForeground det (to_int16 (i * sp + j') + x) r = true.
Proof.
  induction n as [|n IH]; intros j m;
    [intros Hne; exfalso; apply Hne; reflexivity|].
  rewrite scan_columns_S. destruct (_ || _).
  { intros Hne. destruct (IH (j + 1) m Hne) as (j' & r & Hj & Hin & Hfg).
    exists j', r. repeat split; auto; lia. }
  cbv zeta.
  destruct (fst (scan_rows det (to_int16 (i * sp + j) + x) b (Z.to_nat (a - b))))
    eqn:Hfound.
  - intros _. apply scan_rows_found in Hfound as (r & _ & Hfg & Hin).
    exists j, r. split; [lia|]. split; [|exact Hfg].
    destruct (mget _ _ =? 0); cbn [snd]; [apply in_or_app; now left | exact Hin].
  - destruct (mget m (i + 3) =? 0); cbn [fst snd]; [|congruence].
    intros Hne. destruct (IH (j + 1) m Hne) as (j' & r & Hj & Hin & Hfg).
    exists j', r. repeat split; auto; try lia. apply in_or_app; now right.
Qed.

(** An unstamped bin is stamped as soon as one of its columns inside the
    grid has a foreground cell in the region. *)
Lemma scan_columns_complete (i : Z) (n : nat) :
  t <> 0 ->
  forall j m j' r,
    (Z.to_nat (i + 3) < List.length m)%nat ->
    mget m (i + 3) = 0 ->
    j <= j' < j + Z.of_nat n ->
    0 <= to_int16 (i * sp + j') + x <= getWidth det ->
    b <= r < a ->
    isForeground det (to_int16 (i * sp + j') + x) r = true ->
    mget (fst (scan_columns det x a b t sp i j n m)) (i + 3) = t.
Proof.
  intros Ht. induction n as [|n IH]; intros j m j' r Hlen Hzero Hj Hcol Hr Hfg;
    [lia|].
  rewrite scan_columns_S.
  destruct (Z.ltb_spec (to_int16 (i * sp + j) + x) 0) as [Hlo | Hlo].
  { cbn [orb]. assert (j' <> j) by (intros ->; lia).
    apply (IH (j + 1) m j' r); auto; lia. }
  destruct (Z.gtb_spec (to_int16 (i * sp + j) + x) (getWidth det)) as [Hhi | Hhi].
  { cbn [orb]. assert (j' <> j) by (intros ->; lia).
    apply (IH (j + 1) m j' r); auto; lia. }
  cbn [orb]. cbv zeta.
  destruct (fst (scan_rows det (to_int16 (i * sp + j) + x) b (Z.to_nat (a - b))))
    eqn:Hfound.
  - assert (Hset : mget (mset m (i + 3) t) (i + 3) = t).
    { unfold mget, mset. rewrite nth_set_nth_same.
      now replace (_ <? _)%nat with true by (symmetry; now apply Nat.ltb_lt). }
    rewrite Hset.
    replace (t =? 0) with false by (symmetry; now apply Z.eqb_neq).
    exact Hset.
  - rewrite Hzero. cbn [Z.eqb fst].
    assert (j' <> j).
    { intros ->.
      rewrite (scan_rows_finds det _ (Z.to_nat (a - b)) b r) in Hfound;
        [discriminate | lia | exact Hfg]. }
    apply (IH (j + 1) m j' r); auto; lia.
Qed.

Lemma scan_columns_trace_length (i : Z) (n : nat) :
  forall j m,
    (List.length (snd (scan_columns det x a b t sp i j n m)) <= n * Z.to_nat (a - b))%nat.
Proof.
  induction n as [|n IH]; intros j m; [cbn; lia|].
  change (S n * Z.to_nat (a - b))%nat
    with (Z.to_nat (a - b) + n * Z.to_nat (a - b))%nat.
  rewrite scan_columns_S.
  destruct (_ || _);
    [apply Nat.le_trans with (1 := IH (j + 1) m); apply Nat.le_add_l|].
  cbv zeta.
  pose proof (scan_rows_length det (to_int16 (i * sp + j) + x) (Z.to_nat (a - b)) b)
    as Hrows.
  destruct (mget _ _ =? 0); unfold snd at 1;
    [|apply Nat.le_trans with (1 := Hrows); apply Nat.le_add_r].
  rewrite length_app. apply Nat.add_le_mono; [exact Hrows | apply IH].
Qed.

Lemma scan_columns_band (i : Z) (n : nat) :
  forall j m,
    Forall (fun q => exists j', j <= j' < j + Z.of_nat n /\
                                fst q = to_int16 (i * sp + j') + x)
           (snd (scan_columns det x a b t sp i j n m)).
Proof.
  induction n as [|n IH]; intros j m; [constructor|].
  rewrite scan_columns_S.
  assert (Hnext : forall m',
             Forall (fun q => exists j', j <= j' < j + Z.of_nat (S n) /\
                                         fst q = to_int16 (i * sp + j') + x)
                    (snd (scan_columns det x a b t sp i (j + 1) n m'))).
  { intros m'. eapply Forall_impl; [|apply IH]. cbn beta.
    intros q (j' & Hj & Hq). exists j'. split; [lia | exact Hq]. }
  destruct (_ || _); [apply Hnext|]. cbv zeta.
  assert (Hrows : Forall (fun q => exists j', j <= j' < j + Z.of_nat (S n) /\
                                              fst q = to_int16 (i * sp + j') + x)
                         (snd (scan_rows det (to_int16 (i * sp + j) + x) b
                                         (Z.to_nat (a - b))))).
  { eapply Forall_impl; [|apply scan_rows_cells]. cbn beta.
    intros q [Hq _]. exists j. split; [lia | exact Hq]. }
  destruct (mget _ _ =? 0); cbn [snd]; [|exact Hrows].
  apply Forall_app. split; [exact Hrows | apply Hnext].
Qed.

Lemma scan_columns_quiet (i : Z) (n : nat) :
  (forall c r, isForeground det c r = false) ->
  forall j m, fst (scan_columns det x a b t sp i j n m) = m.
Proof.
  intros Hq. induction n as [|n IH]; intros j m; [reflexivity|].
  rewrite scan_columns_S. destruct (_ || _); [apply IH|]. cbv zeta.
  rewrite (scan_rows_quiet det _ _ Hq).
  destruct (mget m (i + 3) =? 0); cbn [fst]; [apply IH | reflexivity].
Qed.

(** *** The same for the whole loop *)

Lemma update_bin_value (i : Z) (k : nat) (m : list Z) :
  nth k (fst (update_bin det x a b t lg sp i m)) 0 = nth k m 0 \/
  nth k (fst (update_bin det x a b t lg sp i m)) 0 = t.
Proof.
  unfold update_bin. destruct (i =? 0); [now left|].
  destruct (fresh _ _ _ _); [now left | apply scan_columns_value].
Qed.

Lemma update_bins_value (k : nat) (bs : list Z) :
  forall m,
    nth k (fst (update_bins det x a b t lg sp bs m)) 0 = nth k m 0 \/
    nth k (fst (update_bins det x a b t lg sp bs m)) 0 = t.
Proof.
  induction bs as [|i bs IH]; intros m; [now left|].
  rewrite update_bins_cons. cbn [fst].
  destruct (IH (fst (update_bin det x a b t lg sp i m))) as [-> | ->];
    [apply update_bin_value | now right].
Qed.

Lemma update_bins_quiet (bs : list Z) :
  (forall c r, isForeground det c r = false) ->
  forall m, fst (update_bins det x a b t lg sp bs m) = m.
Proof.
  intros Hq. induction bs as [|i bs IH]; intros m; [reflexivity|].
  rewrite update_bins_cons. cbn [fst]. rewrite IH.
  unfold update_bin. destruct (i =? 0); [reflexivity|].
  destruct (fresh _ _ _ _); [reflexivity | now apply scan_columns_quiet].
Qed.

Lemma update_bins_trace_length (bs : list Z) :
  forall m,
    (List.length (snd (update_bins det x a b t lg sp bs m))
     <= List.length (filter (fun i => negb (Z.eqb i 0)) bs)
        * (Z.to_nat sp * Z.to_nat (a - b)))%nat.
Proof.
  induction bs as [|i bs IH]; intros m; [cbn; lia|].
  rewrite update_bins_cons. cbn [snd filter]. rewrite length_app.
  specialize (IH (fst (update_bin det x a b t lg sp i m))).
  unfold update_bin at 1. destruct (i =? 0); cbn [negb snd List.length];
    [exact IH|].
  change (S (List.length (filter (fun i0 => negb (Z.eqb i0 0)) bs))
          * (Z.to_nat sp * Z.to_nat (a - b)))%nat
    with (Z.to_nat sp * Z.to_nat (a - b)
          + List.length (filter (fun i0 => negb (Z.eqb i0 0)) bs)
            * (Z.to_nat sp * Z.to_nat (a - b)))%nat.
  destruct (fresh _ _ _ _); unfold snd at 1;
    [apply Nat.le_trans with (1 := IH); apply Nat.le_add_l|].
  apply Nat.add_le_mono; [apply scan_columns_trace_length | exact IH].
Qed.

Lemma update_bins_band (bs : list Z) :
  0 <= sp <= 255 ->
  Forall (fun i => -3 <= i <= 3) bs ->
  forall m,
    Forall (fun q => x - 3 * sp <= fst q < x + 4 * sp)
           (snd (update_bins det x a b t lg sp bs m)).
Proof.
  intros Hsp Hbs. induction Hbs as [|i bs Hi Hbs IH]; intros m; [constructor|].
  rewrite update_bins_cons. cbn [snd]. apply Forall_app. split; [|apply IH].
  unfold update_bin. destruct (i =? 0); [constructor|].
  destruct (fresh _ _ _ _); [constructor|].
  eapply Forall_impl; [|apply scan_columns_band]. cbn beta.
  intros q (j & Hj & ->). rewrite Z2Nat.id in Hj by lia.
  rewrite to_int16_small by nia. nia.
Qed.

End Columns.

(** ** What one update does to the buffer *)

Section Stamping.

Context {D : Type} `{Debounces D}.

Lemma update_success (st st' : LineCrossingCounter D) (det : Detector)
      (tr : list (Z * Z)) :
  update st det = Some (true, st', tr) ->
  exists x a b,
    resolve_x st det = Some x /\ resolve_above st det = Some a /\
    resolve_below st det = Some b /\ 1 <= x /\ b < a /\
    _t st' = next_tick (_t st) /\
    _motion st' =
    fst (update_bins det x a b (_t st') (_lag st) (_sparsity st) bins (_motion st)) /\
    tr =
    snd (update_bins det x a b (_t st') (_lag st) (_sparsity st) bins (_motion st)).
Proof.
  intros Hup. pose proof (update_tick _ _ _ _ _ Hup) as Htick. cbn iota in Htick.
  apply update_resolved in Hup as (x & a & b & Hx & Ha & Hb & Hr).
  exists x, a, b. repeat (split; [assumption|]).
  destruct (Z_lt_le_dec x 1) as [Hlt | Hge].
  { rewrite update_at_line_error in Hr by assumption. discriminate Hr. }
  destruct (Z_le_gt_dec a b) as [Hle | Hgt].
  { rewrite update_at_region_error in Hr by assumption. discriminate Hr. }
  rewrite update_at_valid in Hr by lia. rewrite <- Htick in Hr.
  split; [assumption|]. split; [lia|]. split; [assumption|].
  split; [|congruence].
  assert (Hst : st' =
                mkLCC (_x st) (_miny st) (_maxy st) (_lag st) (_sparsity st)
                      (_t st') (_ltrCount st) (_rtlCount st)
                      (fst (update_bins det x a b (_t st') (_lag st)
                                        (_sparsity st) bins (_motion st)))
                      EmptyString (_debounces st)) by congruence.
  rewrite Hst at 1. reflexivity.
Qed.

Lemma update_failure (st st' : LineCrossingCounter D) (det : Detector)
      (tr : list (Z * Z)) :
  update st det = Some (false, st', tr) ->
  _motion st' = _motion st /\ _t st' = _t st /\ tr = [].
Proof.
  intros Hup. apply update_resolved in Hup as (x & a & b & _ & _ & _ & Hr).
  destruct (Z_lt_le_dec x 1) as [Hlt | Hge].
  { rewrite update_at_line_error in Hr by assumption.
    assert (Hst : (false, st') = setErrorMessage "x-coordinate must be >= 8" st)
      by congruence.
    unfold setErrorMessage in Hst. injection Hst as ->.
    repeat split. congruence. }
  destruct (Z_le_gt_dec a b) as [Hle | Hgt].
  { rewrite update_at_region_error in Hr by assumption.
    assert (Hst : (false, st') = setErrorMessage "above/below limits mismatch" st)
      by congruence.
    unfold setErrorMessage in Hst. injection Hst as ->.
    repeat split. congruence. }
  rewrite update_at_valid in Hr by lia. discriminate Hr.
Qed.

Lemma update_bins_line_slot (det : Detector) (x a b t lg sp : Z) (k : nat)
      (bs : list Z) :
  Forall (fun i => i = 0 \/ k <> Z.to_nat (i + 3)) bs ->
  forall m, nth k (fst (update_bins det x a b t lg sp bs m)) 0 = nth k m 0.
Proof.
  intros Hbs. induction Hbs as [|i bs Hi Hbs IH]; intros m; [reflexivity|].
  rewrite update_bins_cons. cbn [fst]. rewrite IH.
  destruct Hi as [-> | Hk]; [reflexivity | now apply update_bin_other].
Qed.

Lemma update_writes_bin_value (st st' : LineCrossingCounter D) (det : Detector)
      (tr : list (Z * Z)) (i : Z) :
  update st det = Some (true, st', tr) ->
  bin st' i = bin st i \/ bin st' i = _t st'.
Proof.
  intros Hup.
  apply update_success in Hup as (x & a & b & _ & _ & _ & _ & _ & _ & Hm & _).
  unfold bin, mget. rewrite Hm. apply update_bins_value.
Qed.

(** An update writes nothing into the buffer but its own tick: the buffer
    keeps its length, the slot of the bin on the line is never written, and
    every other slot either keeps its value or receives the tick of this
    update. *)
Theorem update_writes_its_tick_only (st st' : LineCrossingCounter D)
        (det : Detector) (r : bool) (tr : list (Z * Z)) :
  update st det = Some (r, st', tr) ->
  List.length (_motion st') = List.length (_motion st) /\
  bin st' 0 = bin st 0 /\
  forall i, bin st' i = bin st i \/ bin st' i = _t st'.
Proof.
  intros Hup. destruct r.
  - apply update_success in Hup as (x & a & b & _ & _ & _ & _ & _ & _ & Hm & _).
    unfold bin, mget. rewrite Hm. split; [apply update_bins_length|].
    split.
    + apply update_bins_line_slot. unfold bins.
      repeat (constructor; [(now left) || (right; cbn; lia)|]). constructor.
    + intros i. apply update_bins_value.
  - apply update_failure in Hup as (Hm & _ & _). unfold bin. rewrite Hm.
    repeat split. intros i. now left.
Qed.

(** Without foreground anywhere in the grid an update leaves the whole
    buffer as it was, whatever the configuration is. *)
Theorem no_foreground_no_stamp (st st' : LineCrossingCounter D)
        (det : Detector) (r : bool) (tr : list (Z * Z)) :
  (forall c y, isForeground det c y = false) ->
  update st det = Some (r, st', tr) ->
  _motion st' = _motion st.
Proof.
  intros Hquiet Hup. destruct r.
  - apply update_success in Hup as (x & a & b & _ & _ & _ & _ & _ & _ & Hm & _).
    rewrite Hm. now apply update_bins_quiet.
  - now apply update_failure in Hup.
Qed.

Lemma active_bin_in_bins (i : Z) : In i active_bins -> In i bins /\ i <> 0.
Proof.
  unfold active_bins, bins. cbn [In]. intros Hi.
  repeat destruct Hi as [<- | Hi]; try contradiction; split; try lia; tauto.
Qed.

Lemma update_bin_of (st st' : LineCrossingCounter D) (det : Detector)
      (tr : list (Z * Z)) (x a b i : Z) :
  update st det = Some (true, st', tr) ->
  resolve_x st det = Some x -> resolve_above st det = Some a ->
  resolve_below st det = Some b ->
  In i bins ->
  bin st' i =
  mget (fst (update_bin det x a b (_t st') (_lag st) (_sparsity st) i (_motion st)))
       (i + 3) /\
  tr = flat_map (fun k => snd (update_bin det x a b (_t st') (_lag st)
                                          (_sparsity st) k (_motion st))) bins.
Proof.
  intros Hup Hx Ha Hb Hi.
  apply update_success in Hup as (x' & a' & b' & Hx' & Ha' & Hb' & _ & _ & _ & Hm & Htr).
  assert (x' = x /\ a' = a /\ b' = b) as (-> & -> & ->) by (repeat split; congruence).
  destruct (update_bins_independent det x a b (_t st') (_lag st) (_sparsity st)
              (_motion st) bins bins_slots_distinct (_motion st) eq_refl
              (fun _ _ => eq_refl)) as [Hflat Hslot].
  split; [|now rewrite Htr].
  unfold bin. rewrite Hm. now apply Hslot.
Qed.

(** A slot is stamped for a reason: when an update changes the slot of an
    active bin, the new value is the tick of this update, and the update
    queried a foreground cell in a column of the band of that bin. *)
Theorem stamp_needs_foreground (st st' : LineCrossingCounter D) (det : Detector)
        (tr : list (Z * Z)) (x i : Z) :
  is_uint8 (_sparsity st) ->
  update st det = Some (true, st', tr) ->
  resolve_x st det = Some x ->
  In i active_bins ->
  bin st' i <> bin st i ->
  bin st' i = _t st' /\
  exists c y,
    in_band x (_sparsity st) i c /\ In (c, y) tr /\ isForeground det c y = true.
Proof.
  intros Hsp Hup Hx Hi Hchanged.
  destruct (update_writes_bin_value st st' det tr i Hup) as [Hsame | Htick];
    [contradiction|].
  split; [exact Htick|].
  apply active_bin_in_bins in Hi as [Hin Hnz].
  destruct (update_resolved _ _ _ Hup) as (x' & a & b & Hx' & Ha & Hb & _).
  assert (x' = x) as -> by congruence.
  destruct (update_bin_of _ _ _ _ _ _ _ _ Hup Hx Ha Hb Hin) as [Hbin Htr].
  rewrite Hbin in Hchanged. unfold update_bin in Hchanged.
  replace (i =? 0) with false in Hchanged by (symmetry; now apply Z.eqb_neq).
  destruct (fresh (_t st') (_lag st) (_motion st) i) eqn:Hfresh;
    [now contradiction Hchanged|].
  apply scan_columns_sound in Hchanged as (j & y & Hj & Hcell & Hfg).
  unfold is_uint8 in Hsp. rewrite Z2Nat.id in Hj by lia.
  assert (Hrange : -3 <= i <= 3)
    by (unfold bins in Hin; cbn [In] in Hin; lia).
  rewrite to_int16_small in Hcell, Hfg by nia.
  exists (i * _sparsity st + j + x), y. split; [|split; [|exact Hfg]].
  - exists j. split; [lia | ring].
  - rewrite Htr. apply in_flat_map. exists i. split; [exact Hin|].
    unfold update_bin.
    replace (i =? 0) with false by (symmetry; now apply Z.eqb_neq).
    now rewrite Hfresh.
Qed.

End Stamping.

Section Detection.

Context {D : Type} `{Debounces D}.

(** A bin that was never stamped does detect motion once the warm-up is
    over: if the advanced tick exceeds the lag and some column of the band
    that lies in [0 .. width] has a foreground cell in a row of the region,
    the update stamps the bin with its tick. *)
Theorem unstamped_bin_detects_motion (st st' : LineCrossingCounter D)
        (det : Detector) (tr : list (Z * Z)) (x a b i c y : Z) :
  wf st ->
  update st det = Some (true, st', tr) ->
  resolve_x st det = Some x -> resolve_above st det = Some a ->
  resolve_below st det = Some b ->
  In i active_bins ->
  bin st i = 0 ->
  _lag st < _t st' ->
  in_band x (_sparsity st) i c -> 0 <= c <= getWidth det ->
  b <= y < a ->
  isForeground det c y = true ->
  bin st' i = _t st'.
Proof.
  intros (Hlag & Hsp & _ & _ & _ & Hlen & _) Hup Hx Ha Hb Hi Hzero Hwarm
         (j & Hj & ->) Hcol Hy Hfg.
  apply active_bin_in_bins in Hi as [Hin Hnz].
  assert (Hrange : -3 <= i <= 3)
    by (unfold bins in Hin; cbn [In] in Hin; lia).
  destruct (update_bin_of _ _ _ _ _ _ _ _ Hup Hx Ha Hb Hin) as [-> _].
  unfold is_uint8 in Hlag, Hsp. unfold update_bin.
  replace (i =? 0) with false by (symmetry; now apply Z.eqb_neq).
  replace (fresh (_t st') (_lag st) (_motion st) i) with false.
  - apply (scan_columns_complete det x a b (_t st') (_sparsity st) i
                                 (Z.to_nat (_sparsity st)) ltac:(lia) 0
                                 (_motion st) j y); auto.
    + rewrite Hlen. lia.
    + rewrite Z2Nat.id by lia. lia.
    + rewrite to_int16_small by nia. lia.
    + rewrite to_int16_small by nia.
      now replace (i * _sparsity st + j + x) with (x + i * _sparsity st + j) by ring.
  - symmetry. unfold fresh. unfold bin in Hzero. rewrite Hzero.
    rewrite Z.geb_leb. apply Z.leb_gt. lia.
Qed.

(** The cost of an update is bounded: it queries at most
    [6 * sparsity * (above - below)] cells, and none when it fails. *)
Theorem update_query_bound (st st' : LineCrossingCounter D) (det : Detector)
        (r : bool) (tr : list (Z * Z)) :
  0 <= _sparsity st ->
  update st det = Some (r, st', tr) ->
  exists a b,
    resolve_above st det = Some a /\ resolve_below st det = Some b /\
    Z.of_nat (List.length tr) <= 6 * _sparsity st * Z.max 0 (a - b) /\
    (r = false -> tr = []).
Proof.
  intros Hsp Hup.
  destruct (update_resolved _ _ _ Hup) as (x & a & b & Hx & Ha & Hb & _).
  exists a, b. repeat (split; [assumption|]).
  destruct r.
  - split; [|discriminate].
    apply update_success in Hup
      as (x' & a' & b' & _ & Ha' & Hb' & _ & _ & _ & _ & ->).
    assert (a' = a /\ b' = b) as [-> ->] by (split; congruence).
    pose proof (update_bins_trace_length det x' a b (_t st') (_lag st)
                                         (_sparsity st) bins (_motion st)) as Hlen.
    change (List.length (filter (fun i => negb (i =? 0)) bins)) with 6%nat in Hlen.
    apply inj_le in Hlen. rewrite !Nat2Z.inj_mul in Hlen.
    rewrite (Z2Nat.id (_sparsity st)) in Hlen by lia.
    replace (Z.of_nat (Z.to_nat (a - b))) with (Z.max 0 (a - b)) in Hlen by lia.
    change (Z.of_nat 6) with 6 in Hlen. lia.
  - apply update_failure in Hup as (_ & _ & ->). cbn [List.length Z.of_nat].
    split; [|reflexivity]. nia.
Qed.

(** Every cell handed to the detector lies in a row of the region
    [below .. above - 1], in a column between 0 and the width (the width
    included), and within the seven bands around the line. *)
Theorem queried_cells_in_region (st st' : LineCrossingCounter D) (det : Detector)
        (r : bool) (tr : list (Z * Z)) :
  is_uint8 (_sparsity st) ->
  update st det = Some (r, st', tr) ->
  exists x a b,
    resolve_x st det = Some x /\ resolve_above st det = Some a /\
    resolve_below st det = Some b /\
    Forall (fun q => 0 <= fst q <= getWidth det /\
                     b <= snd q < a /\
                     x - 3 * _sparsity st <= fst q < x + 4 * _sparsity st) tr.
Proof.
  intros Hsp Hup.
  destruct (update_resolved _ _ _ Hup) as (x & a & b & Hx & Ha & Hb & _).
  exists x, a, b. repeat (split; [assumption|]).
  destruct r.
  - apply update_success in Hup
      as (x' & a' & b' & Hx' & Ha' & Hb' & _ & Hab & _ & _ & ->).
    assert (x' = x /\ a' = a /\ b' = b) as (-> & -> & ->)
        by (repeat split; congruence).
    pose proof (update_bins_cells det x a b (_t st') (_lag st) (_sparsity st)
                                  bins (_motion st)) as Hcells.
    assert (Hbins : Forall (fun i => -3 <= i <= 3) bins)
      by (unfold bins; repeat (constructor; [lia|]); constructor).
    pose proof (update_bins_band det x a b (_t st') (_lag st) (_sparsity st)
                                 bins Hsp Hbins (_motion st)) as Hband.
    rewrite Forall_forall in *. intros q Hq.
    specialize (Hcells q Hq). specialize (Hband q Hq). lia.
  - apply update_failure in Hup as (_ & _ & ->). constructor.
Qed.

End Detection.

(** ** Instances on the fourth update after construction *)

Lemma first_stamp_update :
  update warmed_up (frame 9 9) = Some (true, snd (fst first_stamp), snd first_stamp).
Proof. vm_compute. reflexivity. Qed.

Lemma warmed_up_wf : wf warmed_up.
Proof.
  unfold wf, is_uint8, is_uint16. cbn.
  repeat split; try lia. repeat (constructor; [lia|]). constructor.
Qed.

Lemma update_writes_its_tick_only_witness :
  update warmed_up (frame 9 9) = Some (true, snd (fst first_stamp), snd first_stamp) /\
  bin (snd (fst first_stamp)) 0 = bin warmed_up 0.
Proof.
  split; [exact first_stamp_update|].
  exact (proj1 (proj2 (update_writes_its_tick_only _ _ _ _ _ first_stamp_update))).
Defined.

Lemma no_foreground_no_stamp_witness :
  (forall c y, isForeground no_motion c y = false) /\
  update stale_bin no_motion =
  Some (true, snd (fst (update_at 20 30 0 stale_bin no_motion)),
        snd (update_at 20 30 0 stale_bin no_motion)) /\
  _motion (snd (fst (update_at 20 30 0 stale_bin no_motion))) = _motion stale_bin.
Proof.
  assert (Hquiet : forall c y, isForeground no_motion c y = false).
  { intros c y. cbn. destruct (Z.leb_spec 1 c), (Z.leb_spec c 0); cbn; lia || auto. }
  assert (Hup : update stale_bin no_motion =
                Some (true, snd (fst (update_at 20 30 0 stale_bin no_motion)),
                      snd (update_at 20 30 0 stale_bin no_motion)))
    by (vm_compute; reflexivity).
  split; [exact Hquiet|]. split; [exact Hup|].
  exact (no_foreground_no_stamp _ _ _ _ _ Hquiet Hup).
Defined.

Lemma stamp_needs_foreground_witness :
  bin (snd (fst first_stamp)) (-3) <> bin warmed_up (-3) /\
  bin (snd (fst first_stamp)) (-3) = _t (snd (fst first_stamp)).
Proof.
  assert (Hchanged : bin (snd (fst first_stamp)) (-3) <> bin warmed_up (-3))
    by (vm_compute; discriminate).
  split; [exact Hchanged|].
  refine (proj1 (stamp_needs_foreground warmed_up _ (frame 9 9) _ 20 (-3)
                                        _ first_stamp_update _ _ Hchanged)).
  - unfold is_uint8. cbn. lia.
  - vm_compute. reflexivity.
  - cbn. tauto.
Defined.

Lemma unstamped_bin_detects_motion_witness :
  isForeground (frame 9 9) 9 0 = true /\
  bin (snd (fst first_stamp)) (-3) = _t (snd (fst first_stamp)).
Proof.
  split; [reflexivity|].
  refine (unstamped_bin_detects_motion warmed_up _ (frame 9 9) _ 20 30 0 (-3) 9 0
                                       warmed_up_wf first_stamp_update
                                       _ _ _ _ _ _ _ _ _ _).
  - vm_compute. reflexivity.
  - vm_compute. reflexivity.
  - vm_compute. reflexivity.
  - cbn. tauto.
  - reflexivity.
  - vm_compute. reflexivity.
  - exists 1. cbn. lia.
  - cbn. lia.
  - lia.
  - reflexivity.
Defined.

Lemma update_query_bound_witness :
  0 <= _sparsity warmed_up /\
  exists a b,
    resolve_above warmed_up (frame 9 9) = Some a /\
    resolve_below warmed_up (frame 9 9) = Some b /\
    Z.of_nat (List.length (snd first_stamp)) <= 6 * _sparsity warmed_up * Z.max 0 (a - b) /\
    (true = false -> snd first_stamp = []).
Proof.
  assert (Hsp : 0 <= _sparsity warmed_up) by (cbn; lia).
  split; [exact Hsp|].
  exact (update_query_bound _ _ _ _ _ Hsp first_stamp_update).
Defined.

Lemma queried_cells_in_region_witness :
  is_uint8 (_sparsity warmed_up) /\
  exists x a b,
    resolve_x warmed_up (frame 9 9) = Some x /\
    resolve_above warmed_up (frame 9 9) = Some a /\
    resolve_below warmed_up (frame 9 9) = Some b /\
    Forall (fun q => 0 <= fst q <= getWidth (frame 9 9) /\
                     b <= snd q < a /\
                     x - 3 * _sparsity warmed_up <= fst q < x + 4 * _sparsity warmed_up)
           (snd first_stamp).
Proof.
  assert (Hsp : is_uint8 (_sparsity warmed_up)) by (unfold is_uint8; cbn; lia).
  split; [exact Hsp|].
  exact (queried_cells_in_region _ _ _ _ _ Hsp first_stamp_update).
Defined.

(** ** Long runs *)

Section LongRun.

Context {D : Type} `{Debounces D}.

Lemma iter_tick_closed (n : nat) :
  Nat.iter n next_tick 0 =
  match n with
  | O => 0
  | S k => Z.of_nat k mod 65000 + 1
  end.
Proof.
  induction n as [|n IH]; [reflexivity|].
  change (Nat.iter (S n) next_tick 0) with (next_tick (Nat.iter n next_tick 0)).
  pose proof (iter_tick_range n) as [Hrange _].
  destruct (next_tick_spec _ Hrange) as (-> & _ & _). rewrite IH.
  destruct n as [|k]; [reflexivity|].
  rewrite (Nat2Z.inj_succ k).
  destruct (Z.gtb_spec (Z.of_nat k mod 65000 + 1 + 1) 65000);
    Z.div_mod_to_equations; lia.
Qed.

(** The tick counts the successful updates since construction, modulo the
    wrap: after [n] of them, whatever other calls were made in between, it
    is 0 for [n = 0] and [(n - 1) mod 65000 + 1] otherwise. *)
Theorem tick_counts_successful_updates (m0 : list Z) (d0 : D) (cs : list Call)
        (n : nat) (st : LineCrossingCounter D) :
  run cs (construct m0 d0) = Some (n, st) ->
  _t st = match n with
          | O => 0
          | S k => Z.of_nat k mod 65000 + 1
          end.
Proof.
  intros Hrun. apply run_tick in Hrun. cbn [construct _t] in Hrun.
  rewrite Hrun. apply iter_tick_closed.
Qed.

(** The bounds of the member types hold in every state reached from
    construction, the buffer keeps its seven slots, and the tick never
    exceeds 65000. *)
Theorem reachable_states_are_well_formed (m0 : list Z) (d0 : D) (cs : list Call)
        (n : nat) (st : LineCrossingCounter D) :
  List.length m0 = 7%nat -> Forall is_uint16 m0 ->
  run cs (construct m0 d0) = Some (n, st) ->
  wf st /\ 0 <= _t st <= 65000.
Proof.
  intros Hlen Hm Hrun. split.
  - exact (run_wf cs _ _ _ (construct_wf m0 d0 Hlen Hm) Hrun).
  - apply run_tick in Hrun. cbn [construct _t] in Hrun. rewrite Hrun.
    apply iter_tick_range.
Qed.

Lemma update_shape (st st' : LineCrossingCounter D) (det : Detector) (r : bool)
      (tr : list (Z * Z)) :
  update st det = Some (r, st', tr) ->
  st' = mkLCC (_x st) (_miny st) (_maxy st) (_lag st) (_sparsity st) (_t st')
              (_ltrCount st) (_rtlCount st) (_motion st') (_error st')
              (_debounces st).
Proof.
  intros Hup. apply update_resolved in Hup as (x & a & b & _ & _ & _ & Hr).
  destruct (Z_lt_le_dec x 1) as [Hlt | Hge].
  { rewrite update_at_line_error in Hr by assumption.
    assert (Hst : (r, st') = setErrorMessage "x-coordinate must be >= 8" st)
      by congruence.
    unfold setErrorMessage in Hst. injection Hst as -> ->. reflexivity. }
  destruct (Z_le_gt_dec a b) as [Hle | Hgt].
  { rewrite update_at_region_error in Hr by assumption.
    assert (Hst : (r, st') = setErrorMessage "above/below limits mismatch" st)
      by congruence.
    unfold setErrorMessage in Hst. injection Hst as -> ->. reflexivity. }
  rewrite update_at_valid in Hr by lia.
  assert (Hst : st' =
                mkLCC (_x st) (_miny st) (_maxy st) (_lag st) (_sparsity st)
                      (next_tick (_t st)) (_ltrCount st) (_rtlCount st)
                      (fst (update_bins det x a b (next_tick (_t st)) (_lag st)
                                        (_sparsity st) bins (_motion st)))
                      EmptyString (_debounces st)) by congruence.
  rewrite Hst. reflexivity.
Qed.

Lemma query_keeps_buffer (st : LineCrossingCounter D) :
  _t (snd (crossedFromLeftToRight st)) = _t st /\
  _motion (snd (crossedFromLeftToRight st)) = _motion st /\
  _lag (snd (crossedFromLeftToRight st)) = _lag st /\
  _t (snd (crossedFromRightToLeft st)) = _t st /\
  _motion (snd (crossedFromRightToLeft st)) = _motion st /\
  _lag (snd (crossedFromRightToLeft st)) = _lag st.
Proof.
  unfold crossedFromLeftToRight, crossedFromRightToLeft.
  destruct (negb _), (accepts (ltr_score st)), (accepts (rtl_score st));
    repeat split.
Qed.

(** What a call other than a successful update does to tick and buffer. *)
Lemma call_buffer (c : Call) (st st' : LineCrossingCounter D) (ok : bool) :
  call c st = Some (ok, st') ->
  (exists det tr, c = CallUpdate det /\ update st det = Some (ok, st', tr)) \/
  (ok = false /\ _t st' = _t st /\ _motion st' = _motion st /\
   (keeps_lag c = true -> _lag st' = _lag st)).
Proof.
  destruct c; cbn [call keeps_lag];
    try (intros [= <- <-]; right; repeat split; discriminate).
  - destruct (update st det) as [[[r st1] tr]|] eqn:Hup; [|discriminate].
    intros [= <- <-]. left. now exists det, tr.
  - intros [= <- <-]. right.
    destruct (query_keeps_buffer st) as (Ht & Hm & Hl & _). now repeat split.
  - intros [= <- <-]. right.
    destruct (query_keeps_buffer st) as (_ & _ & _ & Ht & Hm & Hl). now repeat split.
Qed.

Lemma update_bins_Forall_gen (P : Z -> Prop) (det : Detector)
      (x a b t lg sp : Z) (bs : list Z) (m : list Z) :
  P t -> Forall P m -> Forall P (fst (update_bins det x a b t lg sp bs m)).
Proof.
  intros Ht Hm. rewrite Forall_forall in *. intros v Hin.
  destruct (In_nth _ _ 0 Hin) as (k & Hk & <-).
  rewrite update_bins_length in Hk.
  destruct (update_bins_value det x a b t lg sp k bs m) as [-> | ->];
    [apply Hm; now apply nth_In | exact Ht].
Qed.

Lemma run_stamps_bounded (cs : list Call) :
  forall (st st' : LineCrossingCounter D) (n : nat),
    0 <= _t st ->
    Forall (fun v => 0 <= v <= _t st) (_motion st) ->
    run cs st = Some (n, st') ->
    _t st + Z.of_nat n <= 65000 ->
    _t st' = _t st + Z.of_nat n /\
    Forall (fun v => 0 <= v <= _t st') (_motion st').
Proof.
  induction cs as [|c cs IH]; intros st st' n Ht Hm; cbn [run].
  - intros [= <- <-] _. split; [cbn; lia | exact Hm].
  - destruct (call c st) as [[ok st1]|] eqn:Hc; [|discriminate].
    destruct (run cs st1) as [[k st2]|] eqn:Hr; [|discriminate].
    intros [= <- <-] Hn.
    assert (Hstep : _t st1 = _t st + (if ok then 1 else 0) /\
                    Forall (fun v => 0 <= v <= _t st1) (_motion st1)).
    { destruct (call_buffer _ _ _ _ Hc) as [(det & tr & _ & Hup) | (-> & H1 & H2 & _)];
        [|rewrite H1, H2; split; [lia | exact Hm]].
      destruct ok.
      - assert (Hnext : _t st1 = _t st + 1).
        { rewrite (update_tick _ _ _ _ _ Hup).
          destruct (next_tick_spec (_t st) ltac:(lia)) as (-> & _ & _).
          destruct (Z.gtb_spec (_t st + 1) 65000); lia. }
        split; [exact Hnext|].
        apply update_success in Hup as (x & a & b & _ & _ & _ & _ & _ & _ & -> & _).
        apply update_bins_Forall_gen; [lia|].
        eapply Forall_impl; [|exact Hm]. cbn beta. intros v Hv. lia.
      - apply update_failure in Hup as (H2 & H1 & _).
        rewrite H1, H2. split; [lia | exact Hm]. }
    destruct Hstep as [Ht1 Hm1].
    destruct (IH st1 st2 k ltac:(destruct ok; lia) Hm1 Hr) as [Ht2 Hm2];
      [destruct ok; lia|].
    split; [destruct ok; lia | exact Hm2].
Qed.

(** Until the tick wraps for the first time, that is for the first 65000
    successful updates of an object constructed in zeroed storage, the tick
    equals the number of successful updates and no slot of the buffer is
    ahead of the tick. *)
Theorem stamps_follow_the_tick_until_the_wrap (m0 : list Z) (d0 : D)
        (cs : list Call) (n : nat) (st : LineCrossingCounter D) :
  Forall (fun v => v = 0) m0 ->
  Z.of_nat n <= 65000 ->
  run cs (construct m0 d0) = Some (n, st) ->
  _t st = Z.of_nat n /\ Forall (fun v => 0 <= v <= _t st) (_motion st).
Proof.
  intros Hzero Hn Hrun.
  assert (Hm0 : Forall (fun v => 0 <= v <= _t (construct m0 d0))
                       (_motion (construct m0 d0))).
  { cbn [construct _t _motion]. eapply Forall_impl; [|exact Hzero].
    cbn beta. intros v ->. lia. }
  apply (run_stamps_bounded cs (construct m0 d0) st n (Z.le_refl 0) Hm0 Hrun).
  cbn [construct _t]. lia.
Qed.

Lemma run_frozen (i : Z) (cs : list Call) :
  In i bins ->
  forall (st st' : LineCrossingCounter D) (n : nat),
    0 <= _t st <= 65000 ->
    65000 <= bin st i + _lag st ->
    forallb keeps_lag cs = true ->
    run cs st = Some (n, st') ->
    bin st' i = bin st i /\ _lag st' = _lag st.
Proof.
  intros Hi. induction cs as [|c cs IH]; intros st st' n Ht Hlate Hkeep; cbn [run].
  - now intros [= <- <-].
  - cbn [forallb] in Hkeep. apply andb_true_iff in Hkeep as [Hc Hcs].
    destruct (call c st) as [[ok st1]|] eqn:Hcall; [|discriminate].
    destruct (run cs st1) as [[k st2]|] eqn:Hr; [|discriminate].
    intros [= <- <-].
    assert (Hstep : bin st1 i = bin st i /\ _lag st1 = _lag st /\
                    0 <= _t st1 <= 65000).
    { destruct (call_buffer _ _ _ _ Hcall)
        as [(det & tr & _ & Hup) | (_ & H1 & H2 & H3)];
        [|unfold bin; rewrite H1, H2, (H3 Hc); auto].
      assert (Hlag : _lag st1 = _lag st)
        by (rewrite (update_shape _ _ _ _ _ Hup); reflexivity).
      pose proof (update_tick _ _ _ _ _ Hup) as Htick.
      destruct ok.
      - destruct (next_tick_spec (_t st) Ht) as (_ & _ & Hnext).
        rewrite <- Htick in Hnext.
        destruct (update_resolved _ _ _ Hup) as (x & a & b & Hx & Ha & Hb & _).
        destruct (update_bin_of _ _ _ _ _ _ _ _ Hup Hx Ha Hb Hi) as [-> _].
        rewrite update_bin_fresh; [repeat split; auto; lia|].
        apply fresh_iff. unfold bin in Hlate. lia.
      - apply update_failure in Hup as (H2 & H1 & _).
        unfold bin. rewrite H1, H2. auto. }
    destruct Hstep as (Hb1 & Hl1 & Ht1).
    destruct (IH st1 st2 k Ht1 ltac:(rewrite Hb1, Hl1; exact Hlate) Hcs Hr)
      as [Hb2 Hl2].
    split; congruence.
Qed.

(** A stamp written within [lag] ticks of the ceiling 65000 is permanent:
    since the tick never exceeds 65000, the guard of [update] finds the bin
    fresh at every later update, so that no sequence of calls that leaves the
    lag alone ever scans the bin again or changes its slot. *)
Theorem stamp_near_the_wrap_is_permanent (i : Z) (cs : list Call)
        (st st' : LineCrossingCounter D) (n : nat) :
  In i active_bins ->
  0 <= _t st <= 65000 ->
  65000 <= bin st i + _lag st ->
  forallb keeps_lag cs = true ->
  run cs st = Some (n, st') ->
  bin st' i = bin st i.
Proof.
  intros Hi Ht Hlate Hkeep Hrun.
  apply active_bin_in_bins in Hi as [Hin _].
  exact (proj1 (run_frozen i cs Hin st st' n Ht Hlate Hkeep Hrun)).
Qed.

End LongRun.

Lemma tick_counts_successful_updates_witness :
  run sweep_right fresh_counter = Some (7%nat, after_sweep_right) /\
  _t after_sweep_right = 6 mod 65000 + 1.
Proof.
  assert (Hrun : run sweep_right (construct [0; 0; 0; 0; 0; 0; 0] cooldown_elapsed) =
                 Some (7%nat, after_sweep_right)) by (vm_compute; reflexivity).
  split; [exact Hrun|].
  exact (tick_counts_successful_updates _ _ _ _ _ Hrun).
Defined.

Lemma reachable_states_are_well_formed_witness :
  run sweep_right fresh_counter = Some (7%nat, after_sweep_right) /\
  wf after_sweep_right.
Proof.
  assert (Hrun : run sweep_right (construct [0; 0; 0; 0; 0; 0; 0] cooldown_elapsed) =
                 Some (7%nat, after_sweep_right)) by (vm_compute; reflexivity).
  split; [exact Hrun|].
  refine (proj1 (reachable_states_are_well_formed _ _ _ _ _ _ _ Hrun)).
  - reflexivity.
  - repeat (constructor; [unfold is_uint16; lia|]). constructor.
Defined.

Lemma stamps_follow_the_tick_until_the_wrap_witness :
  run sweep_right fresh_counter = Some (7%nat, after_sweep_right) /\
  _t after_sweep_right = 7.
Proof.
  assert (Hrun : run sweep_right (construct [0; 0; 0; 0; 0; 0; 0] cooldown_elapsed) =
                 Some (7%nat, after_sweep_right)) by (vm_compute; reflexivity).
  split; [exact Hrun|].
  refine (proj1 (stamps_follow_the_tick_until_the_wrap _ _ _ _ _ _ _ Hrun)).
  - repeat (constructor; [reflexivity|]). constructor.
  - cbn. lia.
Defined.

Lemma stamp_near_the_wrap_is_permanent_witness :
  run five_frames stamped_at_ceiling = Some (5%nat, after_the_wrap) /\
  bin after_the_wrap (-3) = bin stamped_at_ceiling (-3).
Proof.
  assert (Hrun : run five_frames stamped_at_ceiling = Some (5%nat, after_the_wrap))
    by (vm_compute; reflexivity).
  split; [exact Hrun|].
  refine (stamp_near_the_wrap_is_permanent (-3) five_frames _ _ _ _ _ _ _ Hrun).
  - cbn. tauto.
  - cbn. lia.
  - cbn. lia.
  - reflexivity.
Defined.

(** ** The line and the region as configured *)

Section Configuration.

Context {D : Type} `{Debounces D}.

Lemma resolve_x_of_zero (st : LineCrossingCounter D) (det : Detector) (s : bool)
      (x : Z) :
  _x st = S754_zero s -> resolve_x st det = Some x -> x = 0.
Proof.
  intros Hx. unfold resolve_x, resolve. rewrite Hx.
  replace (Float32.leb Float32.one (S754_zero s)) with false by reflexivity.
  unfold Float32.mul, SFmul.
  destruct (Float32.of_Z (getWidth det)) as [s' | s' | | s' m e]; cbn;
    congruence.
Qed.

(** As long as the line position is 0, as the constructor leaves it, every
    update fails with the message about the x-coordinate, whatever the grid
    and the region are. *)
Theorem unset_line_always_fails (st st' : LineCrossingCounter D) (det : Detector)
        (r : bool) (tr : list (Z * Z)) (s : bool) :
  _x st = S754_zero s ->
  update st det = Some (r, st', tr) ->
  r = false /\ _error st' = "x-coordinate must be >= 8"%string.
Proof.
  intros Hx Hup. apply update_resolved in Hup as (x & a & b & Hrx & _ & _ & Hr).
  apply (resolve_x_of_zero st det s x Hx) in Hrx. subst x.
  rewrite update_at_line_error in Hr by lia.
  assert (Hst : (r, st') = setErrorMessage "x-coordinate must be >= 8" st)
    by congruence.
  unfold setErrorMessage in Hst. injection Hst as -> ->. split; reflexivity.
Qed.

Lemma resolve_x_of_pixels (st : LineCrossingCounter D) (det : Detector) (p x : Z) :
  Float32.valid (_x st) = true ->
  Float32.leb Float32.one (_x st) = true ->
  Float32.trunc (_x st) = Some p ->
  resolve_x st det = Some x ->
  x = p / 8 /\ 1 <= p.
Proof.
  intros Hvalid Hge Hp. unfold resolve_x, resolve. rewrite Hge.
  destruct (ge_one_normal _ Hvalid Hge) as [Hinf | (m & e & Hv & Hd & He)].
  { rewrite Hinf in Hp. discriminate Hp. }
  rewrite Hv in *. rewrite div_eight_exact by (assumption || lia).
  destruct (trunc_div_eight m e) as (p' & Hp' & _ & Hp8).
  assert (p' = p) as -> by congruence.
  unfold Float32.to_uint16. rewrite Hp8.
  destruct (_ && _); [|discriminate]. intros [= <-].
  split; [reflexivity | exact (trunc_ge_one m e p Hd (proj1 He) Hp)].
Qed.

(** A line position of at least 1 is a pixel coordinate, and the message
    means what it says: with [p] the integer part of the position, the line
    column is [p / 8], the update fails with the message about the
    x-coordinate when [p < 8], and it never fails with that message when
    [p >= 8]. *)
Theorem pixel_line_needs_eight (st st' : LineCrossingCounter D) (det : Detector)
        (r : bool) (tr : list (Z * Z)) (p : Z) :
  Float32.valid (_x st) = true ->
  Float32.leb Float32.one (_x st) = true ->
  Float32.trunc (_x st) = Some p ->
  update st det = Some (r, st', tr) ->
  resolve_x st det = Some (p / 8) /\
  (p < 8 -> r = false /\ _error st' = "x-coordinate must be >= 8"%string) /\
  (8 <= p -> _error st' <> "x-coordinate must be >= 8"%string).
Proof.
  intros Hvalid Hge Hp Hup.
  apply update_resolved in Hup as (x & a & b & Hrx & _ & _ & Hr).
  destruct (resolve_x_of_pixels st det p x Hvalid Hge Hp Hrx) as [-> Hp1].
  split; [exact Hrx|]. split.
  - intros Hlt. rewrite update_at_line_error in Hr
      by (assert (p / 8 = 0) by (apply Z.div_small; lia); lia).
    assert (Hst : (r, st') = setErrorMessage "x-coordinate must be >= 8" st)
      by congruence.
    unfold setErrorMessage in Hst. injection Hst as -> ->. split; reflexivity.
  - intros Hge8.
    assert (Hcol : 1 <= p / 8)
      by (apply Z.div_le_lower_bound; lia).
    destruct (Z_le_gt_dec a b) as [Hle | Hgt].
    + rewrite update_at_region_error in Hr by assumption.
      assert (Hst : (r, st') = setErrorMessage "above/below limits mismatch" st)
        by congruence.
      unfold setErrorMessage in Hst. injection Hst as -> ->. discriminate.
    + rewrite update_at_valid in Hr by lia.
      assert (Hst : st' =
                    mkLCC (_x st) (_miny st) (_maxy st) (_lag st) (_sparsity st)
                          (next_tick (_t st)) (_ltrCount st) (_rtlCount st)
                          (fst (update_bins det (p / 8) a b (next_tick (_t st))
                                            (_lag st) (_sparsity st) bins
                                            (_motion st)))
                          EmptyString (_debounces st)) by congruence.
      rewrite Hst. discriminate.
Qed.

Lemma heights_ok_spec (n : nat) :
  forall h0, heights_ok n h0 = true ->
             forall h, h0 <= h < h0 + Z.of_nat n -> default_region_ok h = true.
Proof.
  induction n as [|n IH]; intros h0 Hok h Hh; [lia|].
  cbn [heights_ok] in Hok. apply andb_true_iff in Hok as [Hhere Hrest].
  destruct (Z.eq_dec h h0) as [-> | Hne]; [exact Hhere|].
  apply (IH (h0 + 1) Hrest). lia.
Qed.

Lemma heights_up_to_4096 : heights_ok 4096 1 = true.
Proof. vm_compute. reflexivity. Qed.

(** The region bounds set by the constructor are valid on every grid of 1
    to 4096 rows (frames up to 32768 pixels high): [above] resolves to the
    height, [below] to a row under it, so that the region check of [update]
    passes.  The heights are checked one by one, in binary32. *)
Theorem default_region_is_valid (st : LineCrossingCounter D) (det : Detector) :
  _miny st = Float32.zero -> _maxy st = Float32.c0_999 ->
  1 <= getHeight det <= 4096 ->
  resolve_above st det = Some (getHeight det) /\
  exists b, resolve_below st det = Some b /\ 0 <= b < getHeight det.
Proof.
  intros Hmin Hmax Hh.
  pose proof (heights_ok_spec 4096 1 heights_up_to_4096 (getHeight det)
                              ltac:(cbn; lia)) as Hok.
  unfold default_region_ok in Hok. unfold resolve_above, resolve_below.
  rewrite Hmin, Hmax.
  destruct (Float32.to_uint16
              (Float32.sub (Float32.of_Z (getHeight det))
                           (resolve Float32.zero (getHeight det))))
    as [a|]; [|discriminate].
  destruct (Float32.to_uint16
              (Float32.sub (Float32.of_Z (getHeight det))
                           (resolve Float32.c0_999 (getHeight det))))
    as [b|] eqn:Hb; [|discriminate].
  apply andb_true_iff in Hok as [Ha Hlt].
  apply Z.eqb_eq in Ha. apply Z.ltb_lt in Hlt. subst a.
  split; [reflexivity|]. exists b. split; [reflexivity|].
  split; [|exact Hlt].
  unfold Float32.to_uint16 in Hb.
  destruct (Float32.trunc _) as [z|]; [|discriminate].
  destruct (Z.leb_spec 0 z); cbn [andb] in Hb; [|discriminate].
  destruct (z <=? 65535); congruence.
Qed.

End Configuration.

Lemma unset_line_always_fails_witness :
  update fresh_counter all_motion =
  Some (false, snd (setErrorMessage "x-coordinate must be >= 8" fresh_counter), []) /\
  _error (snd (setErrorMessage "x-coordinate must be >= 8" fresh_counter)) =
  "x-coordinate must be >= 8"%string.
Proof.
  assert (Hup : update fresh_counter all_motion =
                Some (false,
                      snd (setErrorMessage "x-coordinate must be >= 8" fresh_counter),
                      [])) by (vm_compute; reflexivity).
  split; [exact Hup|].
  exact (proj2 (unset_line_always_fails fresh_counter _ all_motion _ _ false
                                        eq_refl Hup)).
Defined.

Lemma pixel_line_needs_eight_witness :
  Float32.trunc (_x warmed_up) = Some 160 /\
  resolve_x warmed_up (frame 9 9) = Some (160 / 8).
Proof.
  split; [reflexivity|].
  refine (proj1 (pixel_line_needs_eight warmed_up _ (frame 9 9) _ _ 160
                                        _ _ _ first_stamp_update));
    reflexivity.
Defined.

Lemma default_region_is_valid_witness :
  1 <= getHeight no_motion <= 4096 /\
  resolve_above fresh_counter no_motion = Some (getHeight no_motion).
Proof.
  assert (Hh : 1 <= getHeight no_motion <= 4096) by (cbn; lia).
  split; [exact Hh|].
  exact (proj1 (default_region_is_valid fresh_counter no_motion eq_refl eq_refl Hh)).
Defined.

(** ** Sweeps in either direction *)

Section Sweeps.

Context {D : Type} `{Debounces D}.

Lemma gt_earlier (st : LineCrossingCounter D) (a b : Z) :
  bin st a < bin st b -> gt st a b = 0.
Proof.
  unfold gt, bin; intros Hlt.
  destruct (_ || _ || _); [reflexivity|].
  replace (mget (_motion st) (a + 3) >? mget (_motion st) (b + 3)) with false
    by (symmetry; rewrite Z.gtb_ltb; apply Z.ltb_ge; lia).
  replace (mget (_motion st) (a + 3) >=? mget (_motion st) (b + 3)) with false
    by (symmetry; rewrite Z.geb_leb; apply Z.leb_gt; lia).
  reflexivity.
Qed.

Lemma gt_at_most_ten (st : LineCrossingCounter D) (a b : Z) : 0 <= gt st a b <= 10.
Proof. destruct (gt_cases st a b) as [-> | [-> | ->]]; lia. Qed.

(** The mirror image of a left-to-right sweep.  Let bins +3, +2, +1, -1 be
    stamped in that order at strictly increasing ticks, each within the lag
    of the one before, bin -2 at the same tick as bin -1, none older than
    [_t - 2 * _lag], and let the debounce have elapsed.  Then the
    right-to-left query scores 31: it returns [true] and adds exactly one to
    its counter, while the left-to-right query on the same state returns
    [false]. *)
Theorem right_to_left_sweep (st : LineCrossingCounter D) :
  debounced (_debounces st) = true ->
  0 < bin st 3 ->
  bin st 3 < bin st 2 -> bin st 2 - bin st 3 <= _lag st ->
  bin st 2 < bin st 1 -> bin st 1 - bin st 2 <= _lag st ->
  bin st 1 < bin st (-1) -> bin st (-1) - bin st 1 <= _lag st ->
  bin st (-2) = bin st (-1) ->
  _t st - 2 * _lag st <= bin st 2 ->
  0 <= _rtlCount st < 65535 ->
  fst (crossedFromRightToLeft st) = true /\
  getRightToLeftCount (snd (crossedFromRightToLeft st)) = _rtlCount st + 1 /\
  getLeftToRightCount (snd (crossedFromRightToLeft st)) = _ltrCount st /\
  crossedFromLeftToRight st = (false, st).
Proof.
  intros Hdeb H3 H32 L32 H21 L21 H11 L11 Heq Hrecent Hcount.
  assert (Hscore : rtl_score st = 31).
  { rewrite rtl_score_sum.
    rewrite (gt_equal_stamps st (-2) (-1)), (gt_strong st (-1) 1),
      (gt_strong st 1 2), (gt_strong st 2 3); lia. }
  rewrite (crossedFromRightToLeft_eq st Hdeb), Hscore.
  change (accepts 31) with true. cbn iota.
  cbn [fst snd getLeftToRightCount getRightToLeftCount _ltrCount _rtlCount].
  repeat split.
  - apply to_uint16_small; lia.
  - apply crossedFromLeftToRight_rejects. rewrite ltr_score_sum.
    rewrite (gt_earlier st 1 (-1)), (gt_earlier st 2 1) by lia.
    rewrite (gt_equal_stamps st (-1) (-2)) by lia.
    pose proof (gt_at_most_ten st (-2) (-3)) as Hg.
    unfold accepts.
    replace (gt st (-2) (-3) + 1 + 0 + 0 >? 20) with false; [reflexivity|].
    symmetry. rewrite Z.gtb_ltb. apply Z.ltb_ge. lia.
Qed.

(** The queries tell the directions apart on the three bins around the
    line.  When bins -2, -1, +1 are stamped at strictly increasing ticks, at
    most two of the right-to-left pairs can score and the right-to-left query
    returns [false]; symmetrically, when bins +2, +1, -1 are stamped at
    strictly increasing ticks the left-to-right query returns [false].  The
    other bins and the debounce do not matter. *)
Theorem rising_stamps_are_one_way (st : LineCrossingCounter D) :
  (bin st (-2) < bin st (-1) -> bin st (-1) < bin st 1 ->
   crossedFromRightToLeft st = (false, st)) /\
  (bin st 2 < bin st 1 -> bin st 1 < bin st (-1) ->
   crossedFromLeftToRight st = (false, st)).
Proof.
  split; intros Hfirst Hsecond.
  - apply crossedFromRightToLeft_rejects. rewrite rtl_score_sum.
    rewrite (gt_earlier st (-2) (-1)), (gt_earlier st (-1) 1) by lia.
    pose proof (gt_at_most_ten st 1 2). pose proof (gt_at_most_ten st 2 3).
    unfold accepts.
    replace (0 + 0 + gt st 1 2 + gt st 2 3 >? 20) with false; [reflexivity|].
    symmetry. rewrite Z.gtb_ltb. apply Z.ltb_ge. lia.
  - apply crossedFromLeftToRight_rejects. rewrite ltr_score_sum.
    rewrite (gt_earlier st 1 (-1)), (gt_earlier st 2 1) by lia.
    pose proof (gt_at_most_ten st (-2) (-3)). pose proof (gt_at_most_ten st (-1) (-2)).
    unfold accepts.
    replace (gt st (-2) (-3) + gt st (-1) (-2) + 0 + 0 >? 20) with false;
      [reflexivity|].
    symmetry. rewrite Z.gtb_ltb. apply Z.ltb_ge. lia.
Qed.

(** An accepted crossing is not consumed.  The query leaves tick and buffer
    as they are, so that the same stamps are accepted again by the next
    query made with the debounce elapsed. *)
Theorem accepted_crossing_is_counted_again (st : LineCrossingCounter D) (d : D) :
  debounced d = true ->
  (fst (crossedFromLeftToRight st) = true ->
   fst (crossedFromLeftToRight (with_debounces (snd (crossedFromLeftToRight st)) d))
   = true) /\
  (fst (crossedFromRightToLeft st) = true ->
   fst (crossedFromRightToLeft (with_debounces (snd (crossedFromRightToLeft st)) d))
   = true).
Proof.
  intros Hd.
  assert (Hl : forall st1 : LineCrossingCounter D,
             _t st1 = _t st -> _motion st1 = _motion st -> _lag st1 = _lag st ->
             ltr_score (with_debounces st1 d) = ltr_score st /\
             rtl_score (with_debounces st1 d) = rtl_score st).
  { intros st1 Ht Hm Hlag. unfold ltr_score, rtl_score, gt, with_debounces.
    cbn [_t _motion _lag]. now rewrite Ht, Hm, Hlag. }
  destruct (query_keeps_buffer st) as (Ht1 & Hm1 & Hl1 & Ht2 & Hm2 & Hl2).
  split; intros Hacc.
  - pose proof (accepted_ltr_score st Hacc) as Hscore.
    rewrite crossedFromLeftToRight_eq by exact Hd.
    rewrite (proj1 (Hl _ Ht1 Hm1 Hl1)), Hscore. reflexivity.
  - pose proof (accepted_rtl_score st Hacc) as Hscore.
    rewrite crossedFromRightToLeft_eq by exact Hd.
    rewrite (proj2 (Hl _ Ht2 Hm2 Hl2)), Hscore. reflexivity.
Qed.

Lemma gt_expired (st : LineCrossingCounter D) (a b : Z) :
  bin st a < _t st - 2 * _lag st -> gt st a b = 0.
Proof.
  unfold gt, bin; intros Hold.
  replace (mget (_motion st) (a + 3) <? _t st - 2 * _lag st) with true
    by (symmetry; now apply Z.ltb_lt).
  now rewrite !orb_true_r.
Qed.

(** Evidence expires.  Once the stamps of the four bins next to the line are
    all older than [_t - 2 * _lag], neither query reports a crossing,
    whatever the two outer bins hold. *)
Theorem old_stamps_expire (st : LineCrossingCounter D) :
  bin st (-2) < _t st - 2 * _lag st -> bin st (-1) < _t st - 2 * _lag st ->
  bin st 1 < _t st - 2 * _lag st -> bin st 2 < _t st - 2 * _lag st ->
  crossedFromLeftToRight st = (false, st) /\
  crossedFromRightToLeft st = (false, st).
Proof.
  intros H2 H1 H1' H2'. split.
  - apply crossedFromLeftToRight_rejects. rewrite ltr_score_sum.
    now rewrite !gt_expired by assumption.
  - apply crossedFromRightToLeft_rejects. rewrite rtl_score_sum.
    now rewrite !gt_expired by assumption.
Qed.

End Sweeps.

Lemma right_to_left_sweep_witness :
  run sweep_left_wide fresh_counter = Some (7%nat, after_sweep_left_wide) /\
  fst (crossedFromRightToLeft after_sweep_left_wide) = true.
Proof.
  split; [vm_compute; reflexivity|].
  refine (proj1 (right_to_left_sweep after_sweep_left_wide _ _ _ _ _ _ _ _ _ _ _));
    vm_compute; try reflexivity; try discriminate.
  split; [discriminate | reflexivity].
Defined.

Lemma rising_stamps_are_one_way_witness :
  bin after_sweep_right_wide (-2) < bin after_sweep_right_wide (-1) /\
  crossedFromRightToLeft after_sweep_right_wide = (false, after_sweep_right_wide).
Proof.
  split; [reflexivity|].
  apply (proj1 (rising_stamps_are_one_way after_sweep_right_wide)); reflexivity.
Defined.

Lemma accepted_crossing_is_counted_again_witness :
  debounced cooldown_elapsed = true /\
  fst (crossedFromLeftToRight
         (with_debounces (snd (crossedFromLeftToRight after_sweep_right_wide))
                         cooldown_elapsed)) = true.
Proof.
  assert (Hd : debounced cooldown_elapsed = true) by reflexivity.
  split; [exact Hd|].
  apply (proj1 (accepted_crossing_is_counted_again after_sweep_right_wide
                                                  cooldown_elapsed Hd)).
  reflexivity.
Defined.

Lemma old_stamps_expire_witness :
  bin (with_t_motion after_sweep_right_wide 20 (_motion after_sweep_right_wide)) 2
  < 20 - 2 * 3 /\
  fst (crossedFromLeftToRight
         (with_t_motion after_sweep_right_wide 20 (_motion after_sweep_right_wide)))
  = false.
Proof.
  split; [reflexivity|].
  rewrite (proj1 (old_stamps_expire
                    (with_t_motion after_sweep_right_wide 20
                                   (_motion after_sweep_right_wide))
                    eq_refl eq_refl eq_refl eq_refl)).
  reflexivity.
Defined.

(** ** When a bin is skipped *)

Section Skipping.

Context {D : Type} `{Debounces D}.

Lemma scan_rows_first_cell (det : Detector) (col y : Z) (n : nat) :
  n <> O -> In (col, y) (snd (scan_rows det col y n)).
Proof.
  destruct n as [|n]; [congruence|]. intros _. cbn [scan_rows].
  destruct (isForeground det col y); [now left|].
  destruct (scan_rows det col (y + 1) n) as [f tr]. now left.
Qed.

(** A scan that is entered queries the first row of the region in the first
    column of the band that passes the bounds guard. *)
Lemma scan_columns_first_cell (det : Detector) (x a b t sp i : Z) (n : nat) :
  b < a ->
  forall j m j',
    j <= j' < j + Z.of_nat n ->
    0 <= to_int16 (i * sp + j') + x <= getWidth det ->
    exists j'',
      j <= j'' < j + Z.of_nat n /\
      In (to_int16 (i * sp + j'') + x, b) (snd (scan_columns det x a b t sp i j n m)).
Proof.
  intros Hab. induction n as [|n IH]; intros j m j' Hj Hcol; [lia|].
  rewrite scan_columns_S.
  destruct (Z.ltb_spec (to_int16 (i * sp + j) + x) 0) as [Hlo | Hlo].
  { cbn [orb]. assert (j' <> j) by (intros ->; lia).
    destruct (IH (j + 1) m j' ltac:(lia) Hcol) as (j'' & Hj'' & Hin).
    exists j''. split; [lia | exact Hin]. }
  destruct (Z.gtb_spec (to_int16 (i * sp + j) + x) (getWidth det)) as [Hhi | Hhi].
  { cbn [orb]. assert (j' <> j) by (intros ->; lia).
    destruct (IH (j + 1) m j' ltac:(lia) Hcol) as (j'' & Hj'' & Hin).
    exists j''. split; [lia | exact Hin]. }
  cbn [orb]. cbv zeta. exists j. split; [lia|].
  assert (Hfirst : In (to_int16 (i * sp + j) + x, b)
                      (snd (scan_rows det (to_int16 (i * sp + j) + x) b
                                      (Z.to_nat (a - b)))))
    by (apply scan_rows_first_cell; lia).
  destruct (mget _ _ =? 0); unfold snd at 1;
    [apply in_or_app; now left | exact Hfirst].
Qed.

(** The cells queried for a bin lie in the band of that bin. *)
Lemma update_bin_band (det : Detector) (x a b t lg sp k : Z) (m : list Z) :
  0 <= sp <= 255 -> -3 <= k <= 3 ->
  Forall (fun q => in_band x sp k (fst q))
         (snd (update_bin det x a b t lg sp k m)).
Proof.
  intros Hsp Hk. unfold update_bin. destruct (k =? 0); [constructor|].
  destruct (fresh _ _ _ _); [constructor|].
  eapply Forall_impl; [|apply scan_columns_band]. cbn beta.
  intros q (j & Hj & ->). rewrite Z2Nat.id in Hj by lia.
  rewrite to_int16_small by nia. exists j. split; [lia | ring].
Qed.

(** The bands of two different bins share no column. *)
Lemma bands_are_disjoint (x sp i k c : Z) :
  in_band x sp i c -> in_band x sp k c -> i = k.
Proof.
  intros (j & Hj & ->) (j' & Hj' & Heq).
  destruct (Z.lt_trichotomy i k) as [Hlt | [Heq' | Hgt]]; [exfalso|exact Heq'|exfalso].
  - assert (sp <= (k - i) * sp) by nia. nia.
  - assert (sp <= (i - k) * sp) by nia. nia.
Qed.

(** C4, as the code has it.  Take a successful [update], its tick being the
    advanced one, and an active bin whose stamp is not ahead of that tick.
    If the stamp lies within the lag of the tick, the bin is skipped: its
    slot is left as it is and no cell of its band is queried.  If it does
    not, the bin is scanned: as soon as a column of the band lies in
    [0 .. width], a cell of the band is queried, in the first row of the
    region.  A slot holding 0 counts as the stamp 0: the bin is skipped while
    the tick does not exceed the lag, and scanned once it does. *)
Theorem bin_is_skipped_iff_within_lag (st st' : LineCrossingCounter D)
        (det : Detector) (tr : list (Z * Z)) (x b i : Z) :
  is_uint8 (_sparsity st) ->
  update st det = Some (true, st', tr) ->
  resolve_x st det = Some x -> resolve_below st det = Some b ->
  In i active_bins ->
  bin st i <= _t st' ->
  (0 <= _t st' - bin st i <= _lag st ->
   bin st' i = bin st i /\
   forall c y, In (c, y) tr -> ~ in_band x (_sparsity st) i c) /\
  (~ (0 <= _t st' - bin st i <= _lag st) ->
   (exists c, in_band x (_sparsity st) i c /\ 0 <= c <= getWidth det) ->
   exists c, in_band x (_sparsity st) i c /\ In (c, b) tr) /\
  (bin st i = 0 ->
   (0 <= _t st' - bin st i <= _lag st <-> _t st' <= _lag st)).
Proof.
  intros Hsp Hup Hx Hb Hi Hpast.
  apply active_bin_in_bins in Hi as [Hin Hnz].
  assert (Hrange : -3 <= i <= 3)
    by (unfold bins in Hin; cbn [In] in Hin; lia).
  destruct (update_success _ _ _ _ Hup)
    as (x' & a & b' & Hx' & Ha & Hb' & _ & Hab & _ & _ & _).
  assert (x' = x /\ b' = b) as [-> ->] by (split; congruence).
  destruct (update_bin_of _ _ _ _ _ _ _ _ Hup Hx Ha Hb Hin) as [Hslot Htr].
  unfold is_uint8 in Hsp.
  split; [|split].
  - intros Hwithin.
    assert (Hfresh : fresh (_t st') (_lag st) (_motion st) i = true)
      by (apply fresh_iff; unfold bin in Hwithin; lia).
    split.
    + rewrite Hslot, update_bin_fresh by exact Hfresh. reflexivity.
    + intros c y Hcell Hband. rewrite Htr in Hcell.
      apply in_flat_map in Hcell as (k & Hk & Hcell).
      assert (Hkrange : -3 <= k <= 3)
        by (unfold bins in Hk; cbn [In] in Hk; lia).
      pose proof (update_bin_band det x a b (_t st') (_lag st) (_sparsity st) k
                                  (_motion st) Hsp Hkrange) as Hk_band.
      rewrite Forall_forall in Hk_band. specialize (Hk_band _ Hcell).
      cbn [fst] in Hk_band.
      assert (i = k) as <- by exact (bands_are_disjoint _ _ _ _ _ Hband Hk_band).
      rewrite update_bin_fresh in Hcell by exact Hfresh. exact Hcell.
  - intros Hnot (c & (j & Hj & ->) & Hcol).
    assert (Hfresh : fresh (_t st') (_lag st) (_motion st) i = false).
    { destruct (fresh (_t st') (_lag st) (_motion st) i) eqn:E; [|reflexivity].
      apply fresh_iff in E. unfold bin in Hnot, Hpast. lia. }
    destruct (scan_columns_first_cell det x a b (_t st') (_sparsity st) i
                                      (Z.to_nat (_sparsity st)) Hab 0 (_motion st) j)
      as (j'' & Hj'' & Hcell).
    + rewrite Z2Nat.id by lia. lia.
    + rewrite to_int16_small by nia. lia.
    + rewrite Z2Nat.id in Hj'' by lia.
      rewrite to_int16_small in Hcell by nia.
      exists (x + i * _sparsity st + j''). split; [exists j''; split; [lia | reflexivity]|].
      rewrite Htr. apply in_flat_map. exists i. split; [exact Hin|].
      unfold update_bin.
      replace (i =? 0) with false by (symmetry; now apply Z.eqb_neq).
      rewrite Hfresh.
      now replace (x + i * _sparsity st + j'') with (i * _sparsity st + j'' + x) by ring.
  - intros Hzero. rewrite Hzero in *. lia.
Qed.

End Skipping.

Lemma bin_is_skipped_iff_within_lag_witness :
  bin warmed_up (-3) <= _t (snd (fst first_stamp)) /\
  ~ (0 <= _t (snd (fst first_stamp)) - bin warmed_up (-3) <= _lag warmed_up) /\
  exists c, in_band 20 (_sparsity warmed_up) (-3) c /\ In (c, 0) (snd first_stamp).
Proof.
  assert (Hpast : bin warmed_up (-3) <= _t (snd (fst first_stamp)))
    by (vm_compute; discriminate).
  assert (Hnot : ~ (0 <= _t (snd (fst first_stamp)) - bin warmed_up (-3)
                    <= _lag warmed_up))
    by (vm_compute; intros [_ Hle]; apply Hle; reflexivity).
  split; [exact Hpast|]. split; [exact Hnot|].
  assert (Hsp : is_uint8 (_sparsity warmed_up)) by (unfold is_uint8; cbn; lia).
  assert (Hx : resolve_x warmed_up (frame 9 9) = Some 20) by (vm_compute; reflexivity).
  assert (Hb : resolve_below warmed_up (frame 9 9) = Some 0)
    by (vm_compute; reflexivity).
  assert (Hi : In (-3) active_bins) by (cbn; tauto).
  destruct (bin_is_skipped_iff_within_lag
              warmed_up (snd (fst first_stamp)) (frame 9 9) (snd first_stamp)
              20 0 (-3) Hsp first_stamp_update Hx Hb Hi Hpast)
    as (_ & Hscan & _).
  apply (Hscan Hnot). exists 8. split; [exists 0; cbn; lia | cbn; lia].
Defined.
